(** * Listings API: permissions, view sets and routing

    A shallow embedding of [listings/views.py] and [listings/urls.py]:
    the [IsHostOrReadOnly] permission, the three model view sets
    ([ListingViewSet], [BookingViewSet], [ReviewViewSet]) and the router.

    The view sets inherit everything but [perform_create] from the REST
    framework's [ModelViewSet]; the inherited request pipeline
    (authentication outcome, permission checks, object lookup, the
    create / update / destroy mixins, [serializer.save]) is written out
    below under the framework's own names, as far as the view sets use it.
    The database table behind a queryset is an explicit state threaded
    through every handler. *)

From stdpp Require Import gmap strings list fin_maps.
From Stdlib Require Import ZArith Ascii String.

Local Open Scope Z_scope.
Local Open Scope string_scope.

(** ** Python values *)

(** [request.user] is either Django's [AnonymousUser] or a saved row of the
    user model, identified by its primary key. *)
Inductive User :=
  | AnonymousUser
  | ModelUser (pk : Z).

(** The values that occur as attributes of model instances and as entries
    of request payloads. *)
Inductive pyval :=
  | PyNone
  | PyInt (z : Z)
  | PyStr (s : string)
  | PyObj (u : User).

(** A Python object seen through its attributes; also the shape of
    [request.data], of [validated_data] and of keyword arguments. *)
Abbreviation attrs := (gmap string pyval).

(** [user.is_authenticated] *)
Definition is_authenticated (u : User) : bool :=
  match u with
  | AnonymousUser => false
  | ModelUser _ => true
  end.

(** [==] on users: [AnonymousUser.__eq__] is an [isinstance] test, and
    [Model.__eq__] compares primary keys of the same model. *)
Definition user_eq (a b : User) : bool :=
  match a, b with
  | AnonymousUser, AnonymousUser => true
  | ModelUser p, ModelUser q => Z.eqb p q
  | _, _ => false
  end.

(** [==] on values: [None] equals only [None]; values of different
    classes are unequal. *)
Definition py_eq (a b : pyval) : bool :=
  match a, b with
  | PyNone, PyNone => true
  | PyInt x, PyInt y => Z.eqb x y
  | PyStr s, PyStr t => String.eqb s t
  | PyObj u, PyObj v => user_eq u v
  | _, _ => false
  end.

(** [getattr(obj, name, default)] *)
Definition getattr (obj : attrs) (name : string) (dflt : pyval) : pyval :=
  default dflt (obj !! name).

(** ** Requests *)

(** The framework's [Request] after authentication has run:
    [authenticators] are the configured authentication classes (by name),
    [successful_authenticator] the one that accepted the credentials, if
    any, and [user] the resulting user ([AnonymousUser] when none did). *)
Record Request := {
  method : string;
  user : User;
  authenticators : list string;
  successful_authenticator : option string;
  data : attrs;
}.

(** [permissions.SAFE_METHODS] *)
Definition SAFE_METHODS : list string := ["GET"; "HEAD"; "OPTIONS"].

Definition is_safe (m : string) : bool := bool_decide (m ∈ SAFE_METHODS).

(** ** Permission classes *)

Record Permission := {
  has_permission : Request -> bool;
  has_object_permission : Request -> attrs -> bool;
}.

(** [permissions.BasePermission]: both checks default to [True]. *)
Module BasePermission.
Definition has_permission (request : Request) : bool := true.
Definition has_object_permission (request : Request) (obj : attrs) : bool := true.
Definition cls : Permission :=
  Build_Permission has_permission has_object_permission.
End BasePermission.

(** [permissions.IsAuthenticated] *)
Module IsAuthenticated.
Definition has_permission (request : Request) : bool :=
  is_authenticated (user request).
Definition cls : Permission :=
  Build_Permission has_permission BasePermission.has_object_permission.
End IsAuthenticated.

(** [permissions.IsAuthenticatedOrReadOnly] *)
Module IsAuthenticatedOrReadOnly.
Definition has_permission (request : Request) : bool :=
  is_safe (method request) || is_authenticated (user request).
Definition cls : Permission :=
  Build_Permission has_permission BasePermission.has_object_permission.
End IsAuthenticatedOrReadOnly.

(** [views.IsHostOrReadOnly] *)
Module IsHostOrReadOnly.
Definition has_object_permission (request : Request) (obj : attrs) : bool :=
  if is_safe (method request) then true
  else py_eq (getattr obj "host" PyNone) (PyObj (user request)).
Definition cls : Permission :=
  Build_Permission BasePermission.has_permission has_object_permission.
End IsHostOrReadOnly.

(** ** Exceptions, responses and the table behind a queryset *)

Inductive APIException :=
  | NotAuthenticated
  | PermissionDenied
  | NotFound
  | ValidationError
  | MethodNotAllowed
  | AssertionError.

Inductive Body :=
  | NoBody
  | Metadata
  | One (r : attrs)
  | Many (rs : list attrs).

Record Response := {
  resp_data : Body;
  status : Z;
}.

(** The rows of one model, keyed by primary key, and the next key the
    database hands out. *)
Record Table := {
  rows : gmap Z attrs;
  next_pk : Z;
}.

(** Handlers read and write the table and may raise. *)
Definition View (A : Type) : Type := Table -> (APIException + A) * Table.

Definition ret {A} (a : A) : View A := fun db => (inr a, db).

Definition raise {A} (e : APIException) : View A := fun db => (inl e, db).

Definition bind {A B} (m : View A) (k : A -> View B) : View B :=
  fun db =>
    match m db with
    | (inl e, db') => (inl e, db')
    | (inr a, db') => k a db'
    end.

Definition get_table : View Table := fun db => (inr db, db).

Definition put_table (db' : Table) : View unit := fun _ => (inr tt, db').

Notation "x <- m ;; k" := (bind m (fun x => k))
  (at level 100, m at next level, right associativity).
Notation "m ;;; k" := (bind m (fun _ => k))
  (at level 100, right associativity).

(** ** Serializers *)

(** What a view set needs from its [serializer_class]: validation of
    [request.data] ([is_valid]; [None] stands for a failed validation),
    given the [partial] flag and the instance being updated, and the
    outgoing representation of an instance. *)
Record Serializer := {
  run_validation : bool -> option attrs -> attrs -> option attrs;
  to_representation : attrs -> attrs;
}.

(** [serializer.is_valid(raise_exception=True)] *)
Definition is_valid (s : Serializer) (partial : bool)
    (instance : option attrs) (payload : attrs) : View attrs :=
  match run_validation s partial instance payload with
  | Some validated_data => ret validated_data
  | None => raise ValidationError
  end.

Module ModelSerializer.

(** [Model.objects.create], called with the validated data as keyword
    arguments. *)
Definition create (validated_data : attrs) : View (Z * attrs) :=
  db <- get_table ;;
  let pk := next_pk db in
  put_table {| rows := <[pk := validated_data]> (rows db);
               next_pk := pk + 1 |} ;;;
  ret (pk, validated_data).

(** [setattr(instance, attr, value)] for every item, then
    [instance.save()]. *)
Definition update (pk : Z) (instance : attrs) (validated_data : attrs)
    : View (Z * attrs) :=
  db <- get_table ;;
  let instance' := validated_data ∪ instance in
  put_table {| rows := <[pk := instance']> (rows db);
               next_pk := next_pk db |} ;;;
  ret (pk, instance').

End ModelSerializer.

(** [serializer.save] with keyword arguments: they are laid over the
    validated data (a dict display that unpacks [validated_data] first
    and the keyword arguments second), and the result
    goes to [update] when the serializer was built on an instance and to
    [create] otherwise. *)
Definition save (instance : option (Z * attrs)) (validated_data : attrs)
    (kwargs : attrs) : View (Z * attrs) :=
  let validated_data' := kwargs ∪ validated_data in
  match instance with
  | Some (pk, obj) => ModelSerializer.update pk obj validated_data'
  | None => ModelSerializer.create validated_data'
  end.

(** ** View sets *)

Record ViewSet := {
  serializer_class : Serializer;
  permission_classes : list Permission;
  perform_create : Request -> attrs -> View (Z * attrs);
}.

(** [viewsets.ModelViewSet], the parts no view set here overrides. *)
Module ModelViewSet.

(** [APIView.permission_denied] *)
Definition permission_denied (request : Request) : APIException :=
  if bool_decide (authenticators request ≠ [])
     && negb (bool_decide (is_Some (successful_authenticator request)))
  then NotAuthenticated
  else PermissionDenied.

Fixpoint check_each (ps : list Permission) (ok : Permission -> bool)
    (request : Request) : View unit :=
  match ps with
  | [] => ret tt
  | p :: ps' =>
      if ok p then check_each ps' ok request
      else raise (permission_denied request)
  end.

(** [APIView.check_permissions] *)
Definition check_permissions (vs : ViewSet) (request : Request) : View unit :=
  check_each (permission_classes vs)
             (fun p => has_permission p request) request.

(** [APIView.check_object_permissions] *)
Definition check_object_permissions (vs : ViewSet) (request : Request)
    (obj : attrs) : View unit :=
  check_each (permission_classes vs)
             (fun p => has_object_permission p request obj) request.

(** [APIView.initial]: authentication has already produced
    [request.user]; no throttles are declared. *)
Definition initial (vs : ViewSet) (request : Request) : View unit :=
  check_permissions vs request.

(** [GenericAPIView.get_object]: the queryset is the whole table. *)
Definition get_object (vs : ViewSet) (kwargs : option Z) (request : Request)
    : View (Z * attrs) :=
  match kwargs with
  | None => raise AssertionError
  | Some pk =>
      db <- get_table ;;
      match rows db !! pk with
      | None => raise NotFound
      | Some obj =>
          check_object_permissions vs request obj ;;;
          ret (pk, obj)
      end
  end.

(** [ListModelMixin.list].  The view sets declare no ordering; the rows
    come in the order of the map, which need not be the order in which
    the database returns them. *)
Definition list (vs : ViewSet) (kwargs : option Z) (request : Request)
    : View Response :=
  db <- get_table ;;
  let queryset := snd <$> map_to_list (rows db) in
  ret {| resp_data := Many (to_representation (serializer_class vs) <$> queryset);
         status := 200 |}.

(** [RetrieveModelMixin.retrieve] *)
Definition retrieve (vs : ViewSet) (kwargs : option Z) (request : Request)
    : View Response :=
  instance <- get_object vs kwargs request ;;
  ret {| resp_data := One (to_representation (serializer_class vs) (snd instance));
         status := 200 |}.

(** [CreateModelMixin.create] *)
Definition create (vs : ViewSet) (kwargs : option Z) (request : Request)
    : View Response :=
  validated_data <- is_valid (serializer_class vs) false None (data request) ;;
  instance <- perform_create vs request validated_data ;;
  ret {| resp_data := One (to_representation (serializer_class vs) (snd instance));
         status := 201 |}.

(** [UpdateModelMixin.perform_update]: [serializer.save()] *)
Definition perform_update (instance : Z * attrs) (validated_data : attrs)
    : View (Z * attrs) :=
  save (Some instance) validated_data ∅.

(** [UpdateModelMixin.update] *)
Definition update (partial : bool) (vs : ViewSet) (kwargs : option Z)
    (request : Request) : View Response :=
  instance <- get_object vs kwargs request ;;
  validated_data <- is_valid (serializer_class vs) partial
                      (Some (snd instance)) (data request) ;;
  instance' <- perform_update instance validated_data ;;
  ret {| resp_data := One (to_representation (serializer_class vs) (snd instance'));
         status := 200 |}.

(** [UpdateModelMixin.partial_update] *)
Definition partial_update := update true.

(** [DestroyModelMixin.perform_destroy]: [instance.delete()] *)
Definition perform_destroy (instance : Z * attrs) : View unit :=
  db <- get_table ;;
  put_table {| rows := delete (fst instance) (rows db);
               next_pk := next_pk db |}.

(** [DestroyModelMixin.destroy] *)
Definition destroy (vs : ViewSet) (kwargs : option Z) (request : Request)
    : View Response :=
  instance <- get_object vs kwargs request ;;
  perform_destroy instance ;;;
  ret {| resp_data := NoBody; status := 204 |}.

(** [APIView.options] *)
Definition options (vs : ViewSet) (kwargs : option Z) (request : Request)
    : View Response :=
  ret {| resp_data := Metadata; status := 200 |}.

End ModelViewSet.

(** ** The view sets of [views.py]

    The serializer classes live in [serializers.py]; each view set takes
    its [serializer_class] as an argument. *)

Module ListingViewSet.
Definition perform_create (request : Request) (validated_data : attrs)
    : View (Z * attrs) :=
  save None validated_data {["host" := PyObj (user request)]}.
Definition cls (ListingSerializer : Serializer) : ViewSet :=
  Build_ViewSet ListingSerializer
    [IsAuthenticatedOrReadOnly.cls; IsHostOrReadOnly.cls]
    perform_create.
End ListingViewSet.

Module BookingViewSet.
Definition perform_create (request : Request) (validated_data : attrs)
    : View (Z * attrs) :=
  save None validated_data {["guest" := PyObj (user request)]}.
Definition cls (BookingSerializer : Serializer) : ViewSet :=
  Build_ViewSet BookingSerializer
    [IsAuthenticated.cls]
    perform_create.
End BookingViewSet.

Module ReviewViewSet.
Definition perform_create (request : Request) (validated_data : attrs)
    : View (Z * attrs) :=
  save None validated_data {["user" := PyObj (user request)]}.
Definition cls (ReviewSerializer : Serializer) : ViewSet :=
  Build_ViewSet ReviewSerializer
    [IsAuthenticated.cls]
    perform_create.
End ReviewViewSet.

(** ** Dispatch of a request inside a view set *)

Inductive Action :=
  | action_list
  | action_create
  | action_retrieve
  | action_update
  | action_partial_update
  | action_destroy.

(** [getattr(self, action)] *)
Definition handler (a : Action)
    : ViewSet -> option Z -> Request -> View Response :=
  match a with
  | action_list => ModelViewSet.list
  | action_create => ModelViewSet.create
  | action_retrieve => ModelViewSet.retrieve
  | action_update => ModelViewSet.update false
  | action_partial_update => ModelViewSet.partial_update
  | action_destroy => ModelViewSet.destroy
  end.

Definition ascii_lower (c : ascii) : ascii :=
  let n := N_of_ascii c in
  if ((65 <=? n) && (n <=? 90))%N then ascii_of_N (n + 32) else c.

(** [str.lower] on ASCII method names *)
Fixpoint lower (s : string) : string :=
  match s with
  | EmptyString => EmptyString
  | String c s' => String (ascii_lower c) (lower s')
  end.

Fixpoint assoc {A} (k : string) (l : list (string * A)) : option A :=
  match l with
  | [] => None
  | (k', a) :: l' => if String.eqb k k' then Some a else assoc k l'
  end.

(** [View.http_method_names] *)
Definition http_method_names : list string :=
  ["get"; "post"; "put"; "patch"; "delete"; "head"; "options"; "trace"].

(** [ViewSetMixin.as_view]: a view set that answers [get] answers [head]
    with the same action. *)
Definition bind_head (actions : list (string * Action))
    : list (string * Action) :=
  match assoc "get" actions, assoc "head" actions with
  | Some a, None => (actions ++ [("head", a)])%list
  | _, _ => actions
  end.

(** The function [as_view] returns, followed by [APIView.dispatch]: the
    permission checks of [initial] run before the handler is chosen.
    [options] is a method of every view; any other method without a
    bound action ends in [http_method_not_allowed]. *)
Definition view (vs : ViewSet) (actions : list (string * Action))
    (kwargs : option Z) (request : Request) : View Response :=
  ModelViewSet.initial vs request ;;;
  let m := lower (method request) in
  if bool_decide (m ∈ http_method_names) then
    match assoc m (bind_head actions) with
    | Some a => handler a vs kwargs request
    | None =>
        if String.eqb m "options" then ModelViewSet.options vs kwargs request
        else raise MethodNotAllowed
    end
  else raise MethodNotAllowed.

(** ** The router of [urls.py] *)

(** [SimpleRouter.routes], without the dynamic routes (no view set
    declares an extra action): the list route
    [^{prefix}{trailing_slash}$] and the detail route
    [^{prefix}/{lookup}{trailing_slash}$]. *)
Record Route := {
  detail : bool;
  mapping : list (string * Action);
  name_suffix : string;
}.

Definition list_route : Route :=
  {| detail := false;
     mapping := [("get", action_list); ("post", action_create)];
     name_suffix := "-list" |}.

Definition detail_route : Route :=
  {| detail := true;
     mapping := [("get", action_retrieve); ("put", action_update);
                 ("patch", action_partial_update);
                 ("delete", action_destroy)];
     name_suffix := "-detail" |}.

Definition routes : list Route := [list_route; detail_route].

Record URLPattern := {
  pat_prefix : string;
  pat_route : Route;
  pat_viewset : ViewSet;
  pat_name : string;
}.

Definition Registry : Type := list (string * ViewSet * string).

(** [router.register(prefix, viewset, basename)] *)
Definition register (registry : Registry) (prefix : string)
    (viewset : ViewSet) (basename : string) : Registry :=
  (registry ++ [(prefix, viewset, basename)])%list.

(** [SimpleRouter.get_urls]: every route for every registered prefix.
    [DefaultRouter] also passes the patterns through
    [format_suffix_patterns], which adds to each a variant that ends in
    a dot and a format name ([listings.json], [listings/4.json],
    [.json]); those variants need a dot in the path and are left out, so
    the patterns here are the router's on every path without a dot. *)
Definition get_urls (registry : Registry) : list URLPattern :=
  '(prefix, viewset, basename) ← registry;
  route ← routes;
  [ {| pat_prefix := prefix; pat_route := route; pat_viewset := viewset;
       pat_name := basename +:+ name_suffix route |} ].

Fixpoint strip_prefix (p s : string) : option string :=
  match p, s with
  | EmptyString, _ => Some s
  | String a p', String b s' =>
      if Ascii.eqb a b then strip_prefix p' s' else None
  | String _ _, EmptyString => None
  end.

(** The lookup group [[^/.]+]: the longest run of characters other than
    a slash and a dot, and what follows it. *)
Fixpoint span_lookup (s : string) : string * string :=
  match s with
  | EmptyString => (EmptyString, EmptyString)
  | String c s' =>
      if Ascii.eqb c "/" || Ascii.eqb c "." then (EmptyString, s)
      else let '(seg, rest) := span_lookup s' in (String c seg, rest)
  end.

(** Matching a path against one pattern; the result holds the captured
    lookup value of a detail route. *)
Definition match_pattern (p : URLPattern) (path : string)
    : option (option string) :=
  match strip_prefix (pat_prefix p) path with
  | None => None
  | Some rest =>
      if detail (pat_route p) then
        match rest with
        | String "/" rest' =>
            let '(seg, tail) := span_lookup rest' in
            if negb (String.eqb seg EmptyString) && String.eqb tail "/"
            then Some (Some seg) else None
        | _ => None
        end
      else if String.eqb rest "/" then Some None else None
  end.

Inductive ResolverMatch :=
  | MatchViewSet (p : URLPattern) (kwargs : option string)
  | MatchApiRoot.

Fixpoint resolve_in (urls : list URLPattern) (path : string)
    : option ResolverMatch :=
  match urls with
  | [] => None
  | p :: urls' =>
      match match_pattern p path with
      | Some kwargs => Some (MatchViewSet p kwargs)
      | None => resolve_in urls' path
      end
  end.

(** [DefaultRouter.get_urls] appends the API root view at the empty
    path; the first pattern that matches wins. *)
Definition resolve (registry : Registry) (path : string)
    : option ResolverMatch :=
  match resolve_in (get_urls registry) path with
  | Some m => Some m
  | None => if String.eqb path EmptyString then Some MatchApiRoot else None
  end.

(** [urls.py]: the router and its single registration;
    [urlpatterns] includes [router.urls] at the empty prefix. *)
Definition router (ListingSerializer : Serializer) : Registry :=
  register [] "listings" (ListingViewSet.cls ListingSerializer) "listing".

Definition urlpatterns (ListingSerializer : Serializer) (path : string)
    : option ResolverMatch :=
  resolve (router ListingSerializer) path.

(** ** Serializers of [serializers.py] *)

(** Modelled from the spec: [serializers.ListingSerializer] is not among
    the files read here.  The spec has [host] server-assigned and ignored
    when present in client input, so validation drops it; the shapes of
    the descriptive fields are left open ([fields_valid], which also sees
    the [partial] flag), and the representation is the instance's
    fields. *)
Definition ListingSerializer (fields_valid : bool -> attrs -> bool)
    : Serializer :=
  {| run_validation := fun partial instance payload =>
       if fields_valid partial payload then Some (delete "host" payload)
       else None;
     to_representation := fun instance => instance |}.

(** Modelled from the spec: the rating of a review is an integer in
    [1, 5]. *)
Definition rating_valid (v : option pyval) : bool :=
  match v with
  | Some (PyInt z) => (1 <=? z)%Z && (z <=? 5)%Z
  | _ => false
  end.

(** Modelled from the spec: [serializers.ReviewSerializer] is not among
    the files read here.  The spec has it reject a payload whose [rating]
    is not an integer in [1, 5] with a validation error and ignore a
    client-supplied [user]; what makes the other fields valid is left
    open ([fields_valid]). *)
Definition ReviewSerializer (fields_valid : bool -> attrs -> bool)
    : Serializer :=
  {| run_validation := fun partial instance payload =>
       if rating_valid (payload !! "rating") && fields_valid partial payload
       then Some (delete "user" payload)
       else None;
     to_representation := fun instance => instance |}.

(** ** Vocabulary of the statements *)

(** A handler that leaves the table as it found it. *)
Definition read_only {A} (m : View A) : Prop :=
  forall db, snd (m db) = db.

(** A view set whose only permission class is [IsAuthenticated]. *)
Definition authenticated_only (vs : ViewSet) : Prop :=
  permission_classes vs = [IsAuthenticated.cls].

(** A value the lookup group of a detail route captures: not empty, no
    slash, no dot. *)
Fixpoint no_slash_dot (s : string) : bool :=
  match s with
  | EmptyString => true
  | String c s' =>
      negb (Ascii.eqb c "/" || Ascii.eqb c ".") && no_slash_dot s'
  end.

Definition lookup_value (s : string) : Prop :=
  s ≠ EmptyString /\ no_slash_dot s = true.

(** A path without a dot: no format-suffix pattern can match it. *)
Fixpoint no_dot (s : string) : bool :=
  match s with
  | EmptyString => true
  | String c s' => negb (Ascii.eqb c ".") && no_dot s'
  end.

(** ** Outcomes of a request

    The view sets of [views.py], each with the keyword its
    [perform_create] passes to [save]. *)
Definition view_sets (ser : Serializer) : list (ViewSet * string) :=
  [ (ListingViewSet.cls ser, "host");
    (BookingViewSet.cls ser, "guest");
    (ReviewViewSet.cls ser, "user") ].

Definition permitted (vs : ViewSet) (request : Request) (db : Table) : Prop :=
  ModelViewSet.check_permissions vs request db = (inr tt, db).

Definition object_permitted (vs : ViewSet) (request : Request)
    (obj : attrs) (db : Table) : Prop :=
  ModelViewSet.check_object_permissions vs request obj db = (inr tt, db).

(** Everything a request can end in when it arrives over a route of the
    router: an error or a read with the table as it was, one row added
    under the next key, the addressed row rewritten, or the addressed row
    removed. *)
Inductive outcome (vs : ViewSet) (field : string) (kwargs : option Z)
    (request : Request) (db : Table)
    : (APIException + Response) * Table -> Prop :=
  | out_error e :
      outcome vs field kwargs request db (inl e, db)
  | out_read resp :
      lower (method request) ∈ ["get"; "head"; "options"] ->
      outcome vs field kwargs request db (inr resp, db)
  | out_create validated_data :
      permitted vs request db ->
      lower (method request) = "post" ->
      run_validation (serializer_class vs) false None (data request)
        = Some validated_data ->
      outcome vs field kwargs request db
        (inr {| resp_data :=
                  One (to_representation (serializer_class vs)
                         (<[field := PyObj (user request)]> validated_data));
                status := 201 |},
         {| rows := <[next_pk db :=
                        <[field := PyObj (user request)]> validated_data]>
                      (rows db);
            next_pk := next_pk db + 1 |})
  | out_update partial pk obj validated_data :
      permitted vs request db ->
      kwargs = Some pk ->
      rows db !! pk = Some obj ->
      object_permitted vs request obj db ->
      lower (method request) ∈ ["put"; "patch"] ->
      run_validation (serializer_class vs) partial (Some obj) (data request)
        = Some validated_data ->
      outcome vs field kwargs request db
        (inr {| resp_data :=
                  One (to_representation (serializer_class vs)
                         (validated_data ∪ obj));
                status := 200 |},
         {| rows := <[pk := validated_data ∪ obj]> (rows db);
            next_pk := next_pk db |})
  | out_destroy pk obj :
      permitted vs request db ->
      kwargs = Some pk ->
      rows db !! pk = Some obj ->
      object_permitted vs request obj db ->
      lower (method request) = "delete" ->
      outcome vs field kwargs request db
        (inr {| resp_data := NoBody; status := 204 |},
         {| rows := delete pk (rows db); next_pk := next_pk db |}).

(** No row sits at or above the next key. *)
Definition fresh (db : Table) : Prop :=
  forall k, next_pk db <= k -> rows db !! k = None.

(** A serializer whose validated data never carries [host]. *)
Definition host_read_only (ser : Serializer) : Prop :=
  forall partial instance payload validated_data,
    run_validation ser partial instance payload = Some validated_data ->
    validated_data !! "host" = None.

(** ** Sequences of requests *)

Record Call := {
  call_route : Route;
  call_kwargs : option Z;
  call_request : Request;
}.

(** The table after one request to a view set. *)
Definition step (vs : ViewSet) (db : Table) (c : Call) : Table :=
  snd (view vs (mapping (call_route c)) (call_kwargs c) (call_request c) db).

(** The table after a sequence of requests, served one after the other. *)
Definition run (vs : ViewSet) (calls : list Call) (db : Table) : Table :=
  foldl (step vs) db calls.

(** ** Sample data

    A serializer that accepts every payload as it is, a table with one
    listing of host 7, one booking of guest 7 and requests of an anonymous
    and of an authenticated caller; the payload names user 9 as owner. *)

Definition plain_serializer : Serializer :=
  {| run_validation := fun _ _ payload => Some payload;
     to_representation := fun instance => instance |}.

Definition sample_listing : attrs :=
  {[ "host" := PyObj (ModelUser 7); "title" := PyStr "Cabin" ]}.

Definition sample_booking : attrs :=
  {[ "guest" := PyObj (ModelUser 7); "listing" := PyInt 1 ]}.

Definition sample_listings : Table :=
  {| rows := {[ 1 := sample_listing ]}; next_pk := 2 |}.

Definition sample_bookings : Table :=
  {| rows := {[ 1 := sample_booking ]}; next_pk := 2 |}.

Definition sample_payload : attrs :=
  {[ "host" := PyObj (ModelUser 9); "guest" := PyObj (ModelUser 9);
     "user" := PyObj (ModelUser 9); "title" := PyStr "Hut";
     "rating" := PyInt 5 ]}.

Definition anonymous_request (m : string) : Request :=
  {| method := m; user := AnonymousUser;
     authenticators := ["SessionAuthentication"];
     successful_authenticator := None;
     data := sample_payload |}.

Definition user_request (m : string) (pk : Z) : Request :=
  {| method := m; user := ModelUser pk;
     authenticators := ["SessionAuthentication"];
     successful_authenticator := Some "SessionAuthentication";
     data := sample_payload |}.

(** An anonymous request to a view whose authentication classes are
    empty. *)
Definition unconfigured_request (m : string) : Request :=
  {| method := m; user := AnonymousUser;
     authenticators := [];
     successful_authenticator := None;
     data := sample_payload |}.

(** A [POST] of user [pk] with the given rating. *)
Definition review_request (rating : Z) (pk : Z) : Request :=
  {| method := "POST"; user := ModelUser pk;
     authenticators := ["SessionAuthentication"];
     successful_authenticator := Some "SessionAuthentication";
     data := {[ "rating" := PyInt rating; "user" := PyObj (ModelUser 9);
                "comment" := PyStr "fine" ]} |}.

Definition any_fields : bool -> attrs -> bool := fun _ _ => true.

(** Requests of an anonymous caller and of user 3 against listing 1 (whose
    host is user 7), and a valid update by the host. *)
Definition foreign_calls : list Call :=
  [ {| call_route := list_route; call_kwargs := None;
       call_request := anonymous_request "POST" |};
    {| call_route := detail_route; call_kwargs := Some 1;
       call_request := user_request "DELETE" 3 |};
    {| call_route := detail_route; call_kwargs := Some 1;
       call_request := user_request "PUT" 3 |};
    {| call_route := list_route; call_kwargs := None;
       call_request := user_request "POST" 3 |} ].

Definition host_calls : list Call :=
  [ {| call_route := detail_route; call_kwargs := Some 1;
       call_request := user_request "PUT" 7 |};
    {| call_route := list_route; call_kwargs := None;
       call_request := user_request "POST" 3 |};
    {| call_route := detail_route; call_kwargs := Some 1;
       call_request := user_request "PATCH" 7 |} ].

(** * Properties *)

(** ** Equality of values *)

Lemma user_eq_true (a b : User) : user_eq a b = true <-> a = b.
Proof.
  destruct a as [|p], b as [|q]; simpl; split; try done.
  - intros H%Z.eqb_eq. by subst.
  - intros [= ->]. apply Z.eqb_refl.
Qed.

Lemma py_eq_true (a b : pyval) : py_eq a b = true <-> a = b.
Proof.
  destruct a, b; simpl; split; try done.
  - intros H%Z.eqb_eq. by subst.
  - intros [= ->]. apply Z.eqb_refl.
  - intros H%String.eqb_eq. by subst.
  - intros [= ->]. apply String.eqb_refl.
  - intros H%user_eq_true. by subst.
  - intros [= ->]. by apply user_eq_true.
Qed.

Lemma is_safe_true (m : string) : is_safe m = true <-> m ∈ SAFE_METHODS.
Proof. unfold is_safe. by rewrite bool_decide_eq_true. Qed.

Lemma is_safe_false (m : string) : is_safe m = false <-> m ∉ SAFE_METHODS.
Proof. unfold is_safe. by rewrite bool_decide_eq_false. Qed.

(** ** The ownership gate *)

Lemma host_gate_safe (request : Request) (obj : attrs) :
  method request ∈ SAFE_METHODS ->
  IsHostOrReadOnly.has_object_permission request obj = true.
Proof.
  intros Hsafe%is_safe_true.
  unfold IsHostOrReadOnly.has_object_permission. by rewrite Hsafe.
Qed.

Lemma host_gate_unsafe (request : Request) (obj : attrs) :
  method request ∉ SAFE_METHODS ->
  IsHostOrReadOnly.has_object_permission request obj = true <->
  obj !! "host" = Some (PyObj (user request)).
Proof.
  intros Hunsafe%is_safe_false.
  unfold IsHostOrReadOnly.has_object_permission, getattr.
  rewrite Hunsafe, py_eq_true.
  destruct (obj !! "host") as [v|]; simpl; split; congruence.
Qed.

(** C2: a safe method is always allowed; any other method is allowed
    exactly when the object's [host] attribute is the requesting user. *)
Theorem has_object_permission_gate (request : Request) (obj : attrs) :
  (method request ∈ SAFE_METHODS ->
     IsHostOrReadOnly.has_object_permission request obj = true) /\
  (method request ∉ SAFE_METHODS ->
     (IsHostOrReadOnly.has_object_permission request obj = true <->
      obj !! "host" = Some (PyObj (user request)))).
Proof.
  split; [apply host_gate_safe | apply host_gate_unsafe].
Qed.

(** C10: an object without a [host] attribute is refused on every unsafe
    method; the check is a total function, so it raises nothing. *)
Theorem has_object_permission_no_host (request : Request) (obj : attrs) :
  obj !! "host" = None ->
  method request ∉ SAFE_METHODS ->
  IsHostOrReadOnly.has_object_permission request obj = false.
Proof.
  intros Hnone Hunsafe%is_safe_false.
  unfold IsHostOrReadOnly.has_object_permission, getattr.
  by rewrite Hunsafe, Hnone.
Qed.

(** ** Running handlers *)

Lemma bind_inr {A B} (m : View A) (k : A -> View B) db a db' :
  m db = (inr a, db') -> bind m k db = k a db'.
Proof. unfold bind. by intros ->. Qed.

Lemma bind_inl {A B} (m : View A) (k : A -> View B) db e db' :
  m db = (inl e, db') -> bind m k db = (inl e, db').
Proof. unfold bind. by intros ->. Qed.

Lemma check_each_read_only ps ok request :
  read_only (ModelViewSet.check_each ps ok request).
Proof.
  intros db. induction ps as [|p ps IH]; simpl; [done|].
  by destruct (ok p).
Qed.

(** [save] without an instance inserts one row under the next key, with
    the keyword argument written over the validated data. *)
Lemma save_create (validated_data : attrs) (field : string) (x : pyval) db :
  save None validated_data {[field := x]} db =
  (inr (next_pk db, <[field := x]> validated_data),
   {| rows := <[next_pk db := <[field := x]> validated_data]> (rows db);
      next_pk := next_pk db + 1 |}).
Proof.
  unfold save, ModelSerializer.create, bind, get_table, put_table, ret.
  by rewrite <- (insert_union_singleton_l validated_data).
Qed.

(** ** Permission checks of the three view sets *)

Lemma check_permissions_listing ser request db :
  ModelViewSet.check_permissions (ListingViewSet.cls ser) request db =
  if is_safe (method request) || is_authenticated (user request)
  then (inr tt, db)
  else (inl (ModelViewSet.permission_denied request), db).
Proof.
  unfold ModelViewSet.check_permissions; simpl.
  unfold IsAuthenticatedOrReadOnly.has_permission.
  by destruct (is_safe _ || is_authenticated _).
Qed.

Lemma check_object_permissions_listing ser request obj db :
  ModelViewSet.check_object_permissions (ListingViewSet.cls ser) request obj db =
  if IsHostOrReadOnly.has_object_permission request obj
  then (inr tt, db)
  else (inl (ModelViewSet.permission_denied request), db).
Proof.
  unfold ModelViewSet.check_object_permissions; simpl.
  by destruct (IsHostOrReadOnly.has_object_permission _ _).
Qed.

Lemma booking_authenticated_only ser :
  authenticated_only (BookingViewSet.cls ser).
Proof. reflexivity. Qed.

Lemma review_authenticated_only ser :
  authenticated_only (ReviewViewSet.cls ser).
Proof. reflexivity. Qed.

Lemma check_permissions_authenticated_only vs request db :
  authenticated_only vs ->
  ModelViewSet.check_permissions vs request db =
  if is_authenticated (user request)
  then (inr tt, db)
  else (inl (ModelViewSet.permission_denied request), db).
Proof.
  unfold ModelViewSet.check_permissions. intros ->; simpl.
  unfold IsAuthenticated.has_permission.
  by destruct (is_authenticated _).
Qed.

Lemma check_object_permissions_authenticated_only vs request obj db :
  authenticated_only vs ->
  ModelViewSet.check_object_permissions vs request obj db = (inr tt, db).
Proof. unfold ModelViewSet.check_object_permissions. by intros ->. Qed.

(** ** Dispatch *)

Lemma view_denied vs actions kwargs request db e :
  ModelViewSet.check_permissions vs request db = (inl e, db) ->
  view vs actions kwargs request db = (inl e, db).
Proof. intros H. unfold view, ModelViewSet.initial. by apply bind_inl. Qed.

Lemma view_bound vs actions kwargs request db m a :
  ModelViewSet.check_permissions vs request db = (inr tt, db) ->
  lower (method request) = m ->
  m ∈ http_method_names ->
  assoc m (bind_head actions) = Some a ->
  view vs actions kwargs request db = handler a vs kwargs request db.
Proof.
  intros Hperm Hm Hin Ha. unfold view, ModelViewSet.initial.
  rewrite (bind_inr _ _ _ _ _ Hperm), Hm, Ha.
  by rewrite bool_decide_eq_true_2.
Qed.

Lemma in_http_method_names (m : string) :
  bool_decide (m ∈ http_method_names) = true -> m ∈ http_method_names.
Proof. apply bool_decide_eq_true_1. Qed.

(** Closes the side conditions of [view_bound] at a literal method. *)
Ltac dispatch_literal :=
  first [ reflexivity
        | apply in_http_method_names; reflexivity ].

(** ** Creation assigns the owner *)

Lemma create_assigns (vs : ViewSet) (field : string) request db validated_data :
  perform_create vs request validated_data =
    save None validated_data {[field := PyObj (user request)]} ->
  run_validation (serializer_class vs) false None (data request)
    = Some validated_data ->
  ModelViewSet.create vs None request db =
  (inr {| resp_data := One (to_representation (serializer_class vs)
                              (<[field := PyObj (user request)]> validated_data));
          status := 201 |},
   {| rows := <[next_pk db := <[field := PyObj (user request)]> validated_data]>
                (rows db);
      next_pk := next_pk db + 1 |}).
Proof.
  intros Hperform Hvalid.
  unfold ModelViewSet.create, is_valid. rewrite Hvalid.
  unfold bind at 1, ret at 1. rewrite Hperform.
  by rewrite (bind_inr _ _ _ _ _ (save_create _ _ _ _)).
Qed.

(** What a successful create leaves behind: status 201 and, under the key
    the table hands out, a row whose [field] is the caller and whose other
    fields are the validated ones. *)
Lemma view_create_owner (vs : ViewSet) (field : string) request db a validated_data :
  ModelViewSet.check_permissions vs request db = (inr tt, db) ->
  perform_create vs request validated_data =
    save None validated_data {[field := PyObj (user request)]} ->
  user request = ModelUser a ->
  method request = "POST" ->
  run_validation (serializer_class vs) false None (data request)
    = Some validated_data ->
  exists resp db' row,
    view vs (mapping list_route) None request db = (inr resp, db') /\
    status resp = 201 /\
    rows db' !! next_pk db = Some row /\
    row !! field = Some (PyObj (ModelUser a)) /\
    (forall k, k ≠ field -> row !! k = validated_data !! k).
Proof.
  intros Hperm Hperform Huser Hmethod Hvalid.
  eexists _, _, _. split; [|split; [|split; [|split]]].
  - rewrite (view_bound vs _ None request db "post" action_create Hperm);
      [ apply (create_assigns vs field); [exact Hperform | exact Hvalid]
      | by rewrite Hmethod | dispatch_literal | dispatch_literal ].
  - reflexivity.
  - simpl. apply lookup_insert_eq.
  - rewrite Huser. apply lookup_insert_eq.
  - intros k Hk. by apply lookup_insert_ne.
Qed.

(** C1: a create request of an authenticated caller persists the caller
    as [host] of a listing, [guest] of a booking and [user] of a review,
    whatever the payload and the validated data hold for that field. *)
Theorem create_sets_owner (ser : Serializer) (request : Request) (db : Table)
    (a : Z) (validated_data : attrs) :
  user request = ModelUser a ->
  method request = "POST" ->
  run_validation ser false None (data request) = Some validated_data ->
  (exists resp db' row,
     view (ListingViewSet.cls ser) (mapping list_route) None request db
       = (inr resp, db') /\
     status resp = 201 /\
     rows db' !! next_pk db = Some row /\
     row !! "host" = Some (PyObj (ModelUser a)) /\
     (forall k, k ≠ "host" -> row !! k = validated_data !! k)) /\
  (exists resp db' row,
     view (BookingViewSet.cls ser) (mapping list_route) None request db
       = (inr resp, db') /\
     status resp = 201 /\
     rows db' !! next_pk db = Some row /\
     row !! "guest" = Some (PyObj (ModelUser a)) /\
     (forall k, k ≠ "guest" -> row !! k = validated_data !! k)) /\
  (exists resp db' row,
     view (ReviewViewSet.cls ser) (mapping list_route) None request db
       = (inr resp, db') /\
     status resp = 201 /\
     rows db' !! next_pk db = Some row /\
     row !! "user" = Some (PyObj (ModelUser a)) /\
     (forall k, k ≠ "user" -> row !! k = validated_data !! k)).
Proof.
  intros Huser Hmethod Hvalid. split; [|split].
  - apply view_create_owner; try done.
    rewrite check_permissions_listing, Huser. simpl.
    by rewrite orb_true_r.
  - apply view_create_owner; try done.
    rewrite (check_permissions_authenticated_only _ _ _
               (booking_authenticated_only ser)).
    by rewrite Huser.
  - apply view_create_owner; try done.
    rewrite (check_permissions_authenticated_only _ _ _
               (review_authenticated_only ser)).
    by rewrite Huser.
Qed.

(** ** Object lookup *)

Lemma bind_inr_inv {A B} (m : View A) (k : A -> View B) db b db' :
  bind m k db = (inr b, db') ->
  exists a db1, m db = (inr a, db1) /\ k a db1 = (inr b, db').
Proof.
  unfold bind. destruct (m db) as [[e|a] db1]; [done|]. eauto.
Qed.

Lemma get_object_found vs pk request db obj :
  rows db !! pk = Some obj ->
  ModelViewSet.check_object_permissions vs request obj db = (inr tt, db) ->
  ModelViewSet.get_object vs (Some pk) request db = (inr (pk, obj), db).
Proof.
  intros Hrow Hperm. unfold ModelViewSet.get_object.
  unfold bind at 1, get_table. rewrite Hrow.
  by rewrite (bind_inr _ _ _ _ _ Hperm).
Qed.

Lemma get_object_refused vs pk request db obj e :
  rows db !! pk = Some obj ->
  ModelViewSet.check_object_permissions vs request obj db = (inl e, db) ->
  ModelViewSet.get_object vs (Some pk) request db = (inl e, db).
Proof.
  intros Hrow Hperm. unfold ModelViewSet.get_object.
  unfold bind at 1, get_table. rewrite Hrow.
  by rewrite (bind_inl _ _ _ _ _ Hperm).
Qed.

Lemma get_object_missing vs pk request db :
  rows db !! pk = None ->
  ModelViewSet.get_object vs (Some pk) request db = (inl NotFound, db).
Proof.
  intros Hrow. unfold ModelViewSet.get_object.
  unfold bind at 1, get_table. by rewrite Hrow.
Qed.

Lemma get_object_inr vs pk request db inst db1 :
  ModelViewSet.get_object vs (Some pk) request db = (inr inst, db1) ->
  exists obj,
    inst = (pk, obj) /\ db1 = db /\ rows db !! pk = Some obj /\
    ModelViewSet.check_object_permissions vs request obj db = (inr tt, db).
Proof.
  unfold ModelViewSet.get_object, bind at 1, get_table.
  destruct (rows db !! pk) as [obj|] eqn:Hrow; [|done].
  pose proof (check_each_read_only (permission_classes vs)
    (fun p => has_object_permission p request obj) request db) as Hro.
  unfold ModelViewSet.check_object_permissions, bind.
  destruct (ModelViewSet.check_each _ _ _ db) as [[e|[]] db2] eqn:Hc;
    [done|]. simpl in Hro; subst db2.
  intros [= <- <-]. by exists obj.
Qed.

(** Every detail action other than [options] starts with [get_object]. *)
Lemma handler_detail_inr (a : Action) vs pk request db resp db' :
  a ∈ [action_retrieve; action_update; action_partial_update; action_destroy] ->
  handler a vs (Some pk) request db = (inr resp, db') ->
  exists obj,
    rows db !! pk = Some obj /\
    ModelViewSet.check_object_permissions vs request obj db = (inr tt, db).
Proof.
  intros Ha Hrun.
  assert (exists inst db1,
    ModelViewSet.get_object vs (Some pk) request db = (inr inst, db1))
    as (inst & db1 & Hget).
  { rewrite !elem_of_cons in Ha.
    destruct Ha as [->|[->|[->|[->|Ha]]]];
      [| | | |by apply elem_of_nil in Ha];
      apply bind_inr_inv in Hrun as (inst & db1 & Hget & _); eauto. }
  apply get_object_inr in Hget as (obj & _ & _ & Hrow & Hperm). eauto.
Qed.

(** ** Anonymous callers and listings *)

Lemma permission_denied_kind request :
  ModelViewSet.permission_denied request = NotAuthenticated \/
  ModelViewSet.permission_denied request = PermissionDenied.
Proof.
  unfold ModelViewSet.permission_denied.
  destruct (_ && _); [by left | by right].
Qed.

Lemma listing_write_needs_authentication ser actions kwargs request db :
  method request ∉ SAFE_METHODS ->
  is_authenticated (user request) = false ->
  view (ListingViewSet.cls ser) actions kwargs request db =
    (inl (ModelViewSet.permission_denied request), db).
Proof.
  intros Hunsafe%is_safe_false Hanon. apply view_denied.
  by rewrite check_permissions_listing, Hunsafe, Hanon.
Qed.

Lemma listing_read_permitted ser request db :
  method request ∈ SAFE_METHODS ->
  ModelViewSet.check_permissions (ListingViewSet.cls ser) request db
    = (inr tt, db).
Proof.
  intros Hsafe%is_safe_true.
  by rewrite check_permissions_listing, Hsafe.
Qed.

Lemma listing_read_object_permitted ser request obj db :
  method request ∈ SAFE_METHODS ->
  ModelViewSet.check_object_permissions (ListingViewSet.cls ser) request obj db
    = (inr tt, db).
Proof.
  intros Hsafe. rewrite check_object_permissions_listing.
  by rewrite (host_gate_safe request obj Hsafe).
Qed.

(** C4: on listings an anonymous caller reads the collection and any
    existing item, and is refused with [NotAuthenticated] or
    [PermissionDenied] on every unsafe method, before anything is written;
    a write that goes through was made by an authenticated caller, and on
    an item by its host. *)
Theorem listing_anonymous_access (ser : Serializer) (request : Request)
    (db : Table) :
  (user request = AnonymousUser -> method request = "GET" ->
     view (ListingViewSet.cls ser) (mapping list_route) None request db =
       (inr {| resp_data :=
                 Many (to_representation ser <$> (snd <$> map_to_list (rows db)));
               status := 200 |}, db)) /\
  (forall pk obj,
     user request = AnonymousUser -> method request = "GET" ->
     rows db !! pk = Some obj ->
     view (ListingViewSet.cls ser) (mapping detail_route) (Some pk) request db =
       (inr {| resp_data := One (to_representation ser obj); status := 200 |},
        db)) /\
  (forall actions kwargs,
     user request = AnonymousUser -> method request ∉ SAFE_METHODS ->
     exists e,
       view (ListingViewSet.cls ser) actions kwargs request db = (inl e, db) /\
       (e = NotAuthenticated \/ e = PermissionDenied)) /\
  (forall actions kwargs resp db',
     method request ∉ SAFE_METHODS ->
     view (ListingViewSet.cls ser) actions kwargs request db = (inr resp, db') ->
     is_authenticated (user request) = true) /\
  (forall pk resp db',
     method request ∈ ["PUT"; "PATCH"; "DELETE"] ->
     view (ListingViewSet.cls ser) (mapping detail_route) (Some pk) request db
       = (inr resp, db') ->
     exists obj,
       rows db !! pk = Some obj /\
       obj !! "host" = Some (PyObj (user request))).
Proof.
  split; [|split; [|split; [|split]]].
  - intros _ Hget.
    assert (method request ∈ SAFE_METHODS) as Hsafe
      by (rewrite Hget; unfold SAFE_METHODS; set_solver).
    rewrite (view_bound _ _ None request db "get" action_list
               (listing_read_permitted ser request db Hsafe));
      [reflexivity | by rewrite Hget | dispatch_literal | dispatch_literal].
  - intros pk obj _ Hget Hrow.
    assert (method request ∈ SAFE_METHODS) as Hsafe
      by (rewrite Hget; unfold SAFE_METHODS; set_solver).
    rewrite (view_bound _ _ (Some pk) request db "get" action_retrieve
               (listing_read_permitted ser request db Hsafe));
      [| by rewrite Hget | dispatch_literal | dispatch_literal].
    simpl. unfold ModelViewSet.retrieve.
    by rewrite (bind_inr _ _ _ _ _
      (get_object_found _ pk request db obj Hrow
         (listing_read_object_permitted ser request obj db Hsafe))).
  - intros actions kwargs Hanon Hunsafe.
    exists (ModelViewSet.permission_denied request). split.
    + apply listing_write_needs_authentication; [done|]. by rewrite Hanon.
    + apply permission_denied_kind.
  - intros actions kwargs resp db' Hunsafe Hrun.
    destruct (is_authenticated (user request)) eqn:Hauth; [done|].
    by rewrite listing_write_needs_authentication in Hrun.
  - intros pk resp db' Hm Hrun.
    assert (method request ∉ SAFE_METHODS) as Hunsafe.
    { rewrite !elem_of_cons in Hm. unfold SAFE_METHODS.
      destruct Hm as [->|[->|[->|Hm]]]; [| | |by apply elem_of_nil in Hm];
        rewrite !elem_of_cons, elem_of_nil; intros [?|[?|[?|[]]]]; done. }
    assert (ModelViewSet.check_permissions (ListingViewSet.cls ser) request db
              = (inr tt, db)) as Hperm.
    { rewrite check_permissions_listing.
      destruct (is_authenticated (user request)) eqn:Hauth;
        [by rewrite orb_true_r|].
      by rewrite listing_write_needs_authentication in Hrun. }
    assert (exists a,
      a ∈ [action_retrieve; action_update; action_partial_update; action_destroy] /\
      handler a (ListingViewSet.cls ser) (Some pk) request db = (inr resp, db'))
      as (a & Ha & Hh).
    { rewrite !elem_of_cons in Hm.
      destruct Hm as [Hm|[Hm|[Hm|Hm]]]; [| | |by apply elem_of_nil in Hm].
      - exists action_update. split; [set_solver|].
        rewrite <- Hrun. symmetry.
        apply (view_bound _ _ _ _ _ "put"); try done;
          [by rewrite Hm | dispatch_literal].
      - exists action_partial_update. split; [set_solver|].
        rewrite <- Hrun. symmetry.
        apply (view_bound _ _ _ _ _ "patch"); try done;
          [by rewrite Hm | dispatch_literal].
      - exists action_destroy. split; [set_solver|].
        rewrite <- Hrun. symmetry.
        apply (view_bound _ _ _ _ _ "delete"); try done;
          [by rewrite Hm | dispatch_literal]. }
    apply handler_detail_inr in Hh as (obj & Hrow & Hobj); [|done].
    exists obj. split; [done|].
    rewrite check_object_permissions_listing in Hobj.
    destruct (IsHostOrReadOnly.has_object_permission request obj) eqn:Hhop;
      [|done].
    by apply host_gate_unsafe.
Qed.

(** ** Bookings and reviews: authentication only *)

Lemma permission_denied_anonymous request :
  authenticators request ≠ [] ->
  successful_authenticator request = None ->
  ModelViewSet.permission_denied request = NotAuthenticated.
Proof.
  intros Hauth Hnone. unfold ModelViewSet.permission_denied.
  rewrite Hnone, (bool_decide_eq_true_2 _ Hauth).
  by rewrite bool_decide_eq_false_2 by (by intros [? ?]).
Qed.

Lemma booking_or_review_authenticated_only ser vs :
  vs = BookingViewSet.cls ser \/ vs = ReviewViewSet.cls ser ->
  authenticated_only vs.
Proof. by intros [-> | ->]. Qed.

Lemma permission_denied_unconfigured request :
  authenticators request = [] ->
  ModelViewSet.permission_denied request = PermissionDenied.
Proof.
  intros Hnone. unfold ModelViewSet.permission_denied.
  by rewrite bool_decide_eq_false_2 by (by intros ?).
Qed.

(** C5, as the code has it: whatever the operation on bookings or
    reviews, an anonymous caller is refused and nothing is read or
    written; the error is [NotAuthenticated] when an authentication class
    is configured and none accepted the caller, and [PermissionDenied]
    when no authentication class is configured; an authenticated caller
    passes the permission check. *)
Theorem booking_review_require_authentication (ser : Serializer)
    (vs : ViewSet) (actions : list (string * Action)) (kwargs : option Z)
    (request : Request) (db : Table) :
  vs = BookingViewSet.cls ser \/ vs = ReviewViewSet.cls ser ->
  (user request = AnonymousUser ->
     exists e,
       view vs actions kwargs request db = (inl e, db) /\
       (e = NotAuthenticated \/ e = PermissionDenied) /\
       (authenticators request ≠ [] ->
        successful_authenticator request = None ->
        e = NotAuthenticated) /\
       (authenticators request = [] -> e = PermissionDenied)) /\
  (forall pk,
     user request = ModelUser pk ->
     ModelViewSet.initial vs request db = (inr tt, db)).
Proof.
  intros Hvs%booking_or_review_authenticated_only. split.
  - intros Hanon. exists (ModelViewSet.permission_denied request).
    split; [|split; [|split]].
    + apply view_denied.
      by rewrite (check_permissions_authenticated_only _ _ _ Hvs), Hanon.
    + apply permission_denied_kind.
    + apply permission_denied_anonymous.
    + apply permission_denied_unconfigured.
  - intros pk Huser. unfold ModelViewSet.initial.
    by rewrite (check_permissions_authenticated_only _ _ _ Hvs), Huser.
Qed.

(** C5, as stated, fails: without an authentication class an anonymous
    caller is refused with [PermissionDenied], not [NotAuthenticated]. *)
Lemma booking_review_unconfigured_forbidden :
  user (unconfigured_request "GET") = AnonymousUser /\
  view (BookingViewSet.cls plain_serializer) (mapping list_route) None
       (unconfigured_request "GET") sample_bookings
    = (inl PermissionDenied, sample_bookings) /\
  view (ReviewViewSet.cls plain_serializer) (mapping detail_route) (Some 1)
       (unconfigured_request "GET") sample_bookings
    = (inl PermissionDenied, sample_bookings) /\
  PermissionDenied ≠ NotAuthenticated.
Proof. repeat split; try reflexivity. discriminate. Qed.

Lemma save_update pk (obj validated_data : attrs) db :
  save (Some (pk, obj)) validated_data ∅ db =
  (inr (pk, validated_data ∪ obj),
   {| rows := <[pk := validated_data ∪ obj]> (rows db);
      next_pk := next_pk db |}).
Proof.
  unfold save, ModelSerializer.update, bind, get_table, put_table, ret.
  by rewrite (left_id_L ∅ (∪) validated_data).
Qed.

Lemma update_run vs partial pk request db obj validated_data :
  rows db !! pk = Some obj ->
  ModelViewSet.check_object_permissions vs request obj db = (inr tt, db) ->
  run_validation (serializer_class vs) partial (Some obj) (data request)
    = Some validated_data ->
  ModelViewSet.update partial vs (Some pk) request db =
  (inr {| resp_data := One (to_representation (serializer_class vs)
                              (validated_data ∪ obj));
          status := 200 |},
   {| rows := <[pk := validated_data ∪ obj]> (rows db);
      next_pk := next_pk db |}).
Proof.
  intros Hrow Hperm Hvalid. unfold ModelViewSet.update.
  rewrite (bind_inr _ _ _ _ _ (get_object_found _ _ _ _ _ Hrow Hperm)).
  simpl. unfold is_valid. rewrite Hvalid.
  unfold bind at 1, ret at 1. unfold ModelViewSet.perform_update.
  by rewrite (bind_inr _ _ _ _ _ (save_update _ _ _ _)).
Qed.

Lemma update_invalid vs partial pk request db obj :
  rows db !! pk = Some obj ->
  ModelViewSet.check_object_permissions vs request obj db = (inr tt, db) ->
  run_validation (serializer_class vs) partial (Some obj) (data request)
    = None ->
  ModelViewSet.update partial vs (Some pk) request db
    = (inl ValidationError, db).
Proof.
  intros Hrow Hperm Hvalid. unfold ModelViewSet.update.
  rewrite (bind_inr _ _ _ _ _ (get_object_found _ _ _ _ _ Hrow Hperm)).
  simpl. unfold is_valid. by rewrite Hvalid.
Qed.

Lemma destroy_run vs pk request db obj :
  rows db !! pk = Some obj ->
  ModelViewSet.check_object_permissions vs request obj db = (inr tt, db) ->
  ModelViewSet.destroy vs (Some pk) request db =
  (inr {| resp_data := NoBody; status := 204 |},
   {| rows := delete pk (rows db); next_pk := next_pk db |}).
Proof.
  intros Hrow Hperm. unfold ModelViewSet.destroy.
  by rewrite (bind_inr _ _ _ _ _ (get_object_found _ _ _ _ _ Hrow Hperm)).
Qed.

(** C8: on bookings and reviews an authenticated caller passes both
    permission checks on any existing row, whoever its guest or author
    is; a [DELETE] then removes the row and a valid [PUT] rewrites it. *)
Theorem booking_review_no_ownership_check (ser : Serializer) (vs : ViewSet)
    (request : Request) (db : Table) (c pk : Z) (obj : attrs) :
  vs = BookingViewSet.cls ser \/ vs = ReviewViewSet.cls ser ->
  user request = ModelUser c ->
  rows db !! pk = Some obj ->
  ModelViewSet.check_permissions vs request db = (inr tt, db) /\
  ModelViewSet.check_object_permissions vs request obj db = (inr tt, db) /\
  (method request = "DELETE" ->
     view vs (mapping detail_route) (Some pk) request db =
     (inr {| resp_data := NoBody; status := 204 |},
      {| rows := delete pk (rows db); next_pk := next_pk db |})) /\
  (forall validated_data,
     method request = "PUT" ->
     run_validation (serializer_class vs) false (Some obj) (data request)
       = Some validated_data ->
     view vs (mapping detail_route) (Some pk) request db =
     (inr {| resp_data := One (to_representation (serializer_class vs)
                                 (validated_data ∪ obj));
             status := 200 |},
      {| rows := <[pk := validated_data ∪ obj]> (rows db);
         next_pk := next_pk db |})).
Proof.
  intros Hvs%booking_or_review_authenticated_only Huser Hrow.
  assert (ModelViewSet.check_permissions vs request db = (inr tt, db))
    as Hperm
    by (by rewrite (check_permissions_authenticated_only _ _ _ Hvs), Huser).
  pose proof (check_object_permissions_authenticated_only vs request obj db Hvs)
    as Hobj.
  split; [done|split; [done|split]].
  - intros Hm.
    rewrite (view_bound _ _ (Some pk) request db "delete" action_destroy Hperm);
      [by apply (destroy_run _ _ _ _ obj) | by rewrite Hm
      | dispatch_literal | dispatch_literal].
  - intros validated_data Hm Hvalid.
    rewrite (view_bound _ _ (Some pk) request db "put" action_update Hperm);
      [by apply update_run | by rewrite Hm
      | dispatch_literal | dispatch_literal].
Qed.

(** ** Retrieval *)

Lemma listing_retrieve ser request db pk :
  method request = "GET" ->
  view (ListingViewSet.cls ser) (mapping detail_route) (Some pk) request db =
  match rows db !! pk with
  | Some obj =>
      (inr {| resp_data := One (to_representation ser obj); status := 200 |}, db)
  | None => (inl NotFound, db)
  end.
Proof.
  intros Hget.
  assert (method request ∈ SAFE_METHODS) as Hsafe
    by (rewrite Hget; unfold SAFE_METHODS; set_solver).
  rewrite (view_bound _ _ (Some pk) request db "get" action_retrieve
             (listing_read_permitted ser request db Hsafe));
    [| by rewrite Hget | dispatch_literal | dispatch_literal].
  simpl. unfold ModelViewSet.retrieve.
  destruct (rows db !! pk) as [obj|] eqn:Hrow.
  - by rewrite (bind_inr _ _ _ _ _
      (get_object_found _ pk request db obj Hrow
         (listing_read_object_permitted ser request obj db Hsafe))).
  - by rewrite (bind_inl _ _ _ _ _ (get_object_missing _ pk request db Hrow)).
Qed.

(** C9: a [GET] of a listing item leaves the table as it was, and a
    second [GET] of the same item, by the same or another caller, gives
    the same result. *)
Theorem listing_retrieve_repeatable (ser : Serializer) (r1 r2 : Request)
    (db : Table) (pk : Z) :
  method r1 = "GET" ->
  method r2 = "GET" ->
  let first :=
    view (ListingViewSet.cls ser) (mapping detail_route) (Some pk) r1 db in
  snd first = db /\
  view (ListingViewSet.cls ser) (mapping detail_route) (Some pk) r2 (snd first)
    = first.
Proof.
  intros H1 H2 first. subst first.
  rewrite (listing_retrieve ser r1 db pk H1).
  destruct (rows db !! pk) as [obj|] eqn:Hrow; cbn [snd];
    (split; [done|]); by rewrite (listing_retrieve ser r2 db pk H2), Hrow.
Qed.

(** ** Validation before persistence *)

Lemma view_inr_permitted vs actions kwargs request db resp db' :
  view vs actions kwargs request db = (inr resp, db') ->
  ModelViewSet.check_permissions vs request db = (inr tt, db).
Proof.
  unfold view, ModelViewSet.initial.
  intros ([] & db1 & Hperm & _)%bind_inr_inv.
  pose proof (check_each_read_only (permission_classes vs)
    (fun p => has_permission p request) request db) as Hro.
  unfold ModelViewSet.check_permissions in *.
  rewrite Hperm in Hro. simpl in Hro. by subst db1.
Qed.

Lemma create_invalid vs kwargs request db :
  run_validation (serializer_class vs) false None (data request) = None ->
  ModelViewSet.create vs kwargs request db = (inl ValidationError, db).
Proof.
  intros Hvalid. unfold ModelViewSet.create, is_valid. by rewrite Hvalid.
Qed.

Lemma rating_valid_true (v : option pyval) :
  rating_valid v = true <-> exists z, v = Some (PyInt z) /\ 1 <= z <= 5.
Proof.
  unfold rating_valid. split.
  - destruct v as [[|z| |]|]; try done.
    intros [H1%Z.leb_le H2%Z.leb_le]%andb_true_iff. eauto.
  - intros (z & -> & H1 & H2). apply andb_true_iff.
    by rewrite !Z.leb_le.
Qed.

(** C6: a review whose rating is not an integer from 1 to 5 is rejected
    with [ValidationError] and the table stays as it was; with a rating
    from 1 to 5 and otherwise valid fields the review is created, with
    that rating and the caller as [user]. *)
Theorem review_rating_validated (fields_valid : bool -> attrs -> bool)
    (request : Request) (db : Table) (c : Z) :
  user request = ModelUser c ->
  method request = "POST" ->
  ((forall z, data request !! "rating" = Some (PyInt z) -> ~ 1 <= z <= 5) ->
     view (ReviewViewSet.cls (ReviewSerializer fields_valid))
          (mapping list_route) None request db
       = (inl ValidationError, db)) /\
  (forall z,
     data request !! "rating" = Some (PyInt z) -> 1 <= z <= 5 ->
     fields_valid false (data request) = true ->
     exists resp db' row,
       view (ReviewViewSet.cls (ReviewSerializer fields_valid))
            (mapping list_route) None request db
         = (inr resp, db') /\
       status resp = 201 /\
       rows db' !! next_pk db = Some row /\
       row !! "rating" = Some (PyInt z) /\
       row !! "user" = Some (PyObj (ModelUser c))).
Proof.
  intros Huser Hmethod.
  set (vs := ReviewViewSet.cls (ReviewSerializer fields_valid)).
  assert (ModelViewSet.check_permissions vs request db = (inr tt, db))
    as Hperm.
  { rewrite (check_permissions_authenticated_only vs _ _
               (review_authenticated_only _)).
    by rewrite Huser. }
  split.
  - intros Hbad.
    rewrite (view_bound vs _ None request db "post" action_create Hperm);
      [| by rewrite Hmethod | dispatch_literal | dispatch_literal].
    apply create_invalid. simpl.
    destruct (rating_valid (data request !! "rating")) eqn:Hr; [|done].
    apply rating_valid_true in Hr as (z & Hz & Hrange).
    by destruct (Hbad z Hz).
  - intros z Hz Hrange Hfields.
    destruct (view_create_owner vs "user" request db c
                (delete "user" (data request)) Hperm)
      as (resp & db' & row & Hrun & Hstatus & Hrow & Howner & Hrest);
      try done.
    { simpl. rewrite Hfields, andb_true_r.
      replace (rating_valid (data request !! "rating")) with true; [done|].
      symmetry. apply rating_valid_true. eauto. }
    exists resp, db', row. repeat split; try done.
    rewrite Hrest by done. by rewrite lookup_delete_ne.
Qed.

(** ** The host of a listing *)

(** C7: an update of a listing that goes through leaves the row with the
    host it had, whatever the payload names as host. *)
Theorem listing_update_keeps_host (fields_valid : bool -> attrs -> bool)
    (request : Request) (db db' : Table) (pk : Z) (obj : attrs)
    (resp : Response) :
  method request = "PUT" \/ method request = "PATCH" ->
  rows db !! pk = Some obj ->
  view (ListingViewSet.cls (ListingSerializer fields_valid))
       (mapping detail_route) (Some pk) request db = (inr resp, db') ->
  exists obj',
    rows db' !! pk = Some obj' /\
    obj' !! "host" = obj !! "host" /\
    resp_data resp = One obj'.
Proof.
  intros Hm Hrow Hrun.
  set (vs := ListingViewSet.cls (ListingSerializer fields_valid)) in *.
  pose proof (view_inr_permitted _ _ _ _ _ _ _ Hrun) as Hperm.
  assert (exists partial,
    ModelViewSet.update partial vs (Some pk) request db = (inr resp, db'))
    as (partial & Hupd).
  { destruct Hm as [Hm|Hm].
    - exists false. rewrite <- Hrun. symmetry.
      apply (view_bound vs _ _ _ _ "put" action_update); try done;
        [by rewrite Hm | dispatch_literal].
    - exists true. rewrite <- Hrun. symmetry.
      apply (view_bound vs _ _ _ _ "patch" action_partial_update); try done;
        [by rewrite Hm | dispatch_literal]. }
  pose proof Hupd as Hget. unfold ModelViewSet.update in Hget.
  apply bind_inr_inv in Hget as (inst & db1 & Hget & _).
  apply get_object_inr in Hget as (obj0 & _ & _ & Hrow0 & Hobj).
  assert (obj0 = obj) as -> by congruence.
  destruct (fields_valid partial (data request)) eqn:Hfields.
  - rewrite (update_run vs partial pk request db obj
               (delete "host" (data request)) Hrow Hobj) in Hupd
      by (simpl; by rewrite Hfields).
    injection Hupd as <- <-. eexists. split; [|split].
    + simpl. apply lookup_insert_eq.
    + rewrite lookup_union_r; [done|]. apply lookup_delete_eq.
    + reflexivity.
  - rewrite (update_invalid vs partial pk request db obj Hrow Hobj) in Hupd
      by (simpl; by rewrite Hfields).
    discriminate.
Qed.

(** ** Routing *)

Lemma strip_prefix_app (p s : string) : strip_prefix p (p +:+ s) = Some s.
Proof.
  induction p as [|a p IH]; simpl; [done|]. by rewrite Ascii.eqb_refl.
Qed.

Lemma span_lookup_app (seg tail : string) :
  no_slash_dot seg = true ->
  span_lookup (seg +:+ String "/" tail) = (seg, String "/" tail).
Proof.
  induction seg as [|c seg IH]; simpl; [done|].
  intros [Hc Hseg]%andb_true_iff. apply negb_true_iff in Hc.
  by rewrite Hc, (IH Hseg).
Qed.

Lemma get_urls_router ser :
  get_urls (router ser) =
  [ {| pat_prefix := "listings"; pat_route := list_route;
       pat_viewset := ListingViewSet.cls ser; pat_name := "listing-list" |};
    {| pat_prefix := "listings"; pat_route := detail_route;
       pat_viewset := ListingViewSet.cls ser; pat_name := "listing-detail" |} ].
Proof. reflexivity. Qed.

Lemma view_dispatch vs actions kwargs request db m a :
  lower (method request) = m ->
  m ∈ http_method_names ->
  assoc m (bind_head actions) = Some a ->
  view vs actions kwargs request db =
  (ModelViewSet.initial vs request ;;; handler a vs kwargs request) db.
Proof.
  intros Hm Hin Ha. unfold view.
  by rewrite Hm, Ha, bool_decide_eq_true_2.
Qed.

(** C3, as the code has it: the router resolves the listing collection
    at [listings/] and a listing item at [listings/{pk}/]; on the
    collection [GET] runs [list] and [POST] runs [create], on an item
    [GET] runs [retrieve], [PUT] [update], [PATCH] [partial_update] and
    [DELETE] [destroy], each after the permission checks of [initial]. *)
Theorem router_listing_routes (ser : Serializer) :
  urlpatterns ser "listings/" =
    Some (MatchViewSet
            {| pat_prefix := "listings"; pat_route := list_route;
               pat_viewset := ListingViewSet.cls ser;
               pat_name := "listing-list" |} None) /\
  (forall pk,
     lookup_value pk ->
     urlpatterns ser ("listings/" +:+ pk +:+ "/") =
       Some (MatchViewSet
               {| pat_prefix := "listings"; pat_route := detail_route;
                  pat_viewset := ListingViewSet.cls ser;
                  pat_name := "listing-detail" |} (Some pk))) /\
  (forall kwargs request db,
     let vs := ListingViewSet.cls ser in
     let after_initial (h : View Response) :=
       (ModelViewSet.initial vs request ;;; h) db in
     (method request = "GET" ->
        view vs (mapping list_route) kwargs request db =
        after_initial (ModelViewSet.list vs kwargs request)) /\
     (method request = "POST" ->
        view vs (mapping list_route) kwargs request db =
        after_initial (ModelViewSet.create vs kwargs request)) /\
     (method request = "GET" ->
        view vs (mapping detail_route) kwargs request db =
        after_initial (ModelViewSet.retrieve vs kwargs request)) /\
     (method request = "PUT" ->
        view vs (mapping detail_route) kwargs request db =
        after_initial (ModelViewSet.update false vs kwargs request)) /\
     (method request = "PATCH" ->
        view vs (mapping detail_route) kwargs request db =
        after_initial (ModelViewSet.partial_update vs kwargs request)) /\
     (method request = "DELETE" ->
        view vs (mapping detail_route) kwargs request db =
        after_initial (ModelViewSet.destroy vs kwargs request))).
Proof.
  split; [|split].
  - reflexivity.
  - intros pk [Hne Hpk]. unfold urlpatterns, resolve.
    rewrite get_urls_router. unfold resolve_in, match_pattern.
    cbn [pat_prefix pat_route detail list_route detail_route].
    change ("listings/" +:+ pk +:+ "/")
      with ("listings" +:+ String "/" (pk +:+ "/")).
    rewrite strip_prefix_app.
    assert (String.eqb (String "/" (pk +:+ "/")) "/" = false) as ->.
    { destruct pk; [done|]. reflexivity. }
    rewrite (span_lookup_app pk EmptyString Hpk).
    by apply String.eqb_neq in Hne as ->.
  - intros kwargs request db vs after_initial. subst after_initial.
    repeat split; intros Hm.
    + apply (view_dispatch _ _ _ _ _ "get" action_list);
        [by rewrite Hm | dispatch_literal | dispatch_literal].
    + apply (view_dispatch _ _ _ _ _ "post" action_create);
        [by rewrite Hm | dispatch_literal | dispatch_literal].
    + apply (view_dispatch _ _ _ _ _ "get" action_retrieve);
        [by rewrite Hm | dispatch_literal | dispatch_literal].
    + apply (view_dispatch _ _ _ _ _ "put" action_update);
        [by rewrite Hm | dispatch_literal | dispatch_literal].
    + apply (view_dispatch _ _ _ _ _ "patch" action_partial_update);
        [by rewrite Hm | dispatch_literal | dispatch_literal].
    + apply (view_dispatch _ _ _ _ _ "delete" action_destroy);
        [by rewrite Hm | dispatch_literal | dispatch_literal].
Qed.

(** C3, as stated, fails: the router has no pattern for the booking and
    review collections or their items. *)
Lemma router_bookings_reviews_unresolved :
  urlpatterns plain_serializer "bookings/" = None /\
  urlpatterns plain_serializer "bookings/1/" = None /\
  urlpatterns plain_serializer "reviews/" = None /\
  urlpatterns plain_serializer "reviews/1/" = None.
Proof. repeat split; reflexivity. Qed.

(** ** The statements at the sample data *)

Lemma create_sets_owner_witness :
  data (user_request "POST" 3) !! "host" = Some (PyObj (ModelUser 9)) /\
  exists resp db' row,
    view (ListingViewSet.cls plain_serializer) (mapping list_route) None
         (user_request "POST" 3) sample_listings = (inr resp, db') /\
    status resp = 201 /\
    rows db' !! next_pk sample_listings = Some row /\
    row !! "host" = Some (PyObj (ModelUser 3)) /\
    (forall k, k ≠ "host" -> row !! k = sample_payload !! k).
Proof.
  split; [reflexivity|].
  exact (proj1 (create_sets_owner plain_serializer (user_request "POST" 3)
                  sample_listings 3 sample_payload
                  eq_refl eq_refl eq_refl)).
Defined.

Lemma has_object_permission_gate_witness :
  IsHostOrReadOnly.has_object_permission
    (anonymous_request "GET") sample_listing = true /\
  (IsHostOrReadOnly.has_object_permission
     (user_request "PUT" 7) sample_listing = true <->
   sample_listing !! "host" = Some (PyObj (ModelUser 7))).
Proof.
  split.
  - apply (proj1 (has_object_permission_gate
                    (anonymous_request "GET") sample_listing)).
    compute_done.
  - apply (proj2 (has_object_permission_gate
                    (user_request "PUT" 7) sample_listing)).
    compute_done.
Defined.

Lemma has_object_permission_no_host_witness :
  sample_booking !! "host" = None /\
  IsHostOrReadOnly.has_object_permission
    (user_request "DELETE" 7) sample_booking = false.
Proof.
  split; [reflexivity|].
  apply has_object_permission_no_host; [reflexivity|].
  compute_done.
Defined.

Lemma router_listing_routes_witness :
  lookup_value "42" /\
  urlpatterns plain_serializer "listings/42/" =
    Some (MatchViewSet
            {| pat_prefix := "listings"; pat_route := detail_route;
               pat_viewset := ListingViewSet.cls plain_serializer;
               pat_name := "listing-detail" |} (Some "42")) /\
  view (ListingViewSet.cls plain_serializer) (mapping detail_route) (Some 1)
       (user_request "DELETE" 7) sample_listings =
  (ModelViewSet.initial (ListingViewSet.cls plain_serializer)
                        (user_request "DELETE" 7) ;;;
   ModelViewSet.destroy (ListingViewSet.cls plain_serializer) (Some 1)
                        (user_request "DELETE" 7)) sample_listings.
Proof.
  assert (lookup_value "42") as Hpk by (split; [discriminate | reflexivity]).
  split; [exact Hpk|]. split.
  - exact (proj1 (proj2 (router_listing_routes plain_serializer)) "42" Hpk).
  - exact (proj2 (proj2 (proj2 (proj2 (proj2
             (proj2 (proj2 (router_listing_routes plain_serializer))
                (Some 1) (user_request "DELETE" 7) sample_listings)))))
             eq_refl).
Defined.

Lemma listing_anonymous_access_witness :
  view (ListingViewSet.cls plain_serializer) (mapping list_route) None
       (anonymous_request "GET") sample_listings =
    (inr {| resp_data := Many [sample_listing]; status := 200 |},
     sample_listings) /\
  view (ListingViewSet.cls plain_serializer) (mapping detail_route) (Some 1)
       (anonymous_request "GET") sample_listings =
    (inr {| resp_data := One sample_listing; status := 200 |},
     sample_listings) /\
  (exists e,
     view (ListingViewSet.cls plain_serializer) (mapping list_route) None
          (anonymous_request "POST") sample_listings = (inl e, sample_listings) /\
     (e = NotAuthenticated \/ e = PermissionDenied)) /\
  is_authenticated (user (user_request "POST" 3)) = true /\
  (exists obj,
     rows sample_listings !! 1 = Some obj /\
     obj !! "host" = Some (PyObj (user (user_request "DELETE" 7)))).
Proof.
  split; [|split; [|split; [|split]]].
  - exact (proj1 (listing_anonymous_access plain_serializer
                    (anonymous_request "GET") sample_listings)
                 eq_refl eq_refl).
  - exact (proj1 (proj2 (listing_anonymous_access plain_serializer
                           (anonymous_request "GET") sample_listings))
                 1 sample_listing eq_refl eq_refl eq_refl).
  - apply (proj1 (proj2 (proj2 (listing_anonymous_access plain_serializer
                           (anonymous_request "POST") sample_listings))));
      [reflexivity | compute_done].
  - destruct (view (ListingViewSet.cls plain_serializer) (mapping list_route)
                   None (user_request "POST" 3) sample_listings)
      as [[e|resp] db'] eqn:Hrun; [vm_compute in Hrun; discriminate|].
    apply (proj1 (proj2 (proj2 (proj2
             (listing_anonymous_access plain_serializer
                (user_request "POST" 3) sample_listings))))
             (mapping list_route) None resp db'); [compute_done | exact Hrun].
  - destruct (view (ListingViewSet.cls plain_serializer) (mapping detail_route)
                   (Some 1) (user_request "DELETE" 7) sample_listings)
      as [[e|resp] db'] eqn:Hrun; [vm_compute in Hrun; discriminate|].
    apply (proj2 (proj2 (proj2 (proj2
             (listing_anonymous_access plain_serializer
                (user_request "DELETE" 7) sample_listings))))
             1 resp db'); [compute_done | exact Hrun].
Defined.

Lemma booking_review_require_authentication_witness :
  view (BookingViewSet.cls plain_serializer) (mapping list_route) None
       (anonymous_request "GET") sample_bookings
    = (inl NotAuthenticated, sample_bookings) /\
  view (BookingViewSet.cls plain_serializer) (mapping list_route) None
       (unconfigured_request "GET") sample_bookings
    = (inl PermissionDenied, sample_bookings) /\
  ModelViewSet.initial (ReviewViewSet.cls plain_serializer)
                       (user_request "GET" 3) sample_bookings
    = (inr tt, sample_bookings).
Proof.
  split; [|split].
  - destruct (proj1 (booking_review_require_authentication plain_serializer
                       (BookingViewSet.cls plain_serializer)
                       (mapping list_route) None
                       (anonymous_request "GET") sample_bookings
                       (or_introl eq_refl)) eq_refl)
      as (e & Hrun & _ & He & _).
    rewrite Hrun. f_equal. f_equal. apply He; [discriminate | reflexivity].
  - destruct (proj1 (booking_review_require_authentication plain_serializer
                       (BookingViewSet.cls plain_serializer)
                       (mapping list_route) None
                       (unconfigured_request "GET") sample_bookings
                       (or_introl eq_refl)) eq_refl)
      as (e & Hrun & _ & _ & He).
    rewrite Hrun. f_equal. f_equal. apply He. reflexivity.
  - exact (proj2 (booking_review_require_authentication plain_serializer
                    (ReviewViewSet.cls plain_serializer)
                    (mapping list_route) None
                    (user_request "GET" 3) sample_bookings
                    (or_intror eq_refl)) 3 eq_refl).
Defined.

Lemma review_rating_validated_witness :
  view (ReviewViewSet.cls (ReviewSerializer any_fields)) (mapping list_route)
       None (review_request 6 3) sample_bookings
    = (inl ValidationError, sample_bookings) /\
  exists resp db' row,
    view (ReviewViewSet.cls (ReviewSerializer any_fields)) (mapping list_route)
         None (review_request 5 3) sample_bookings = (inr resp, db') /\
    status resp = 201 /\
    rows db' !! next_pk sample_bookings = Some row /\
    row !! "rating" = Some (PyInt 5) /\
    row !! "user" = Some (PyObj (ModelUser 3)).
Proof.
  split.
  - apply (proj1 (review_rating_validated any_fields (review_request 6 3)
                    sample_bookings 3 eq_refl eq_refl)).
    intros z Hz. vm_compute in Hz. injection Hz as <-. lia.
  - apply (proj2 (review_rating_validated any_fields (review_request 5 3)
                    sample_bookings 3 eq_refl eq_refl) 5);
      [reflexivity | lia | reflexivity].
Defined.

Lemma listing_update_keeps_host_witness :
  data (user_request "PUT" 7) !! "host" = Some (PyObj (ModelUser 9)) /\
  exists resp db' obj',
    view (ListingViewSet.cls (ListingSerializer any_fields))
         (mapping detail_route) (Some 1) (user_request "PUT" 7) sample_listings
      = (inr resp, db') /\
    rows db' !! 1 = Some obj' /\
    obj' !! "host" = Some (PyObj (ModelUser 7)).
Proof.
  split; [reflexivity|].
  destruct (view (ListingViewSet.cls (ListingSerializer any_fields))
                 (mapping detail_route) (Some 1) (user_request "PUT" 7)
                 sample_listings)
    as [[e|resp] db'] eqn:Hrun; [vm_compute in Hrun; discriminate|].
  destruct (listing_update_keeps_host any_fields (user_request "PUT" 7)
              sample_listings db' 1 sample_listing resp
              (or_introl eq_refl) eq_refl Hrun)
    as (obj' & Hrow & Hhost & _).
  exists resp, db', obj'. split; [reflexivity|]. split; [exact Hrow|].
  rewrite Hhost. reflexivity.
Defined.

Lemma booking_review_no_ownership_check_witness :
  sample_booking !! "guest" = Some (PyObj (ModelUser 7)) /\
  view (BookingViewSet.cls plain_serializer) (mapping detail_route) (Some 1)
       (user_request "DELETE" 3) sample_bookings =
  (inr {| resp_data := NoBody; status := 204 |},
   {| rows := delete 1 (rows sample_bookings);
      next_pk := next_pk sample_bookings |}).
Proof.
  split; [reflexivity|].
  exact (proj1 (proj2 (proj2
           (booking_review_no_ownership_check plain_serializer
              (BookingViewSet.cls plain_serializer)
              (user_request "DELETE" 3) sample_bookings 3 1 sample_booking
              (or_introl eq_refl) eq_refl eq_refl)))
           eq_refl).
Defined.

Lemma listing_retrieve_repeatable_witness :
  let first :=
    view (ListingViewSet.cls plain_serializer) (mapping detail_route) (Some 1)
         (anonymous_request "GET") sample_listings in
  snd first = sample_listings /\
  view (ListingViewSet.cls plain_serializer) (mapping detail_route) (Some 1)
       (user_request "GET" 3) (snd first) = first.
Proof.
  exact (listing_retrieve_repeatable plain_serializer
           (anonymous_request "GET") (user_request "GET" 3)
           sample_listings 1 eq_refl eq_refl).
Defined.

(** * Further properties *)

(** ** The outcome of one request *)

Lemma check_each_cases ps ok request db :
  ModelViewSet.check_each ps ok request db = (inr tt, db) \/
  exists e, ModelViewSet.check_each ps ok request db = (inl e, db).
Proof.
  induction ps as [|p ps IH]; simpl; [by left|].
  destruct (ok p); [done|right; eauto].
Qed.

Lemma view_permitted vs actions kwargs request db :
  permitted vs request db ->
  view vs actions kwargs request db =
  (if bool_decide (lower (method request) ∈ http_method_names) then
     match assoc (lower (method request)) (bind_head actions) with
     | Some a => handler a vs kwargs request
     | None =>
         if String.eqb (lower (method request)) "options"
         then ModelViewSet.options vs kwargs request
         else raise MethodNotAllowed
     end
   else raise MethodNotAllowed) db.
Proof.
  intros Hperm. unfold view, ModelViewSet.initial.
  by rewrite (bind_inr _ _ _ _ _ Hperm).
Qed.

Lemma get_object_cases vs kwargs request db :
  (exists e, ModelViewSet.get_object vs kwargs request db = (inl e, db)) \/
  (exists pk obj,
     kwargs = Some pk /\ rows db !! pk = Some obj /\
     object_permitted vs request obj db /\
     ModelViewSet.get_object vs kwargs request db = (inr (pk, obj), db)).
Proof.
  destruct kwargs as [pk|]; [|left; by eexists].
  destruct (rows db !! pk) as [obj|] eqn:Hrow.
  - destruct (check_each_cases (permission_classes vs)
                (fun p => has_object_permission p request obj) request db)
      as [Hobj|[e Hobj]].
    + right. exists pk, obj. repeat split; try done.
      by apply get_object_found.
    + left. exists e. by apply (get_object_refused _ _ _ _ obj).
  - left. exists NotFound. by apply get_object_missing.
Qed.

Section Outcome.
Variables (vs : ViewSet) (field : string).
Variables (kwargs : option Z) (request : Request) (db : Table).
Hypothesis Hfield : forall validated_data,
  perform_create vs request validated_data =
  save None validated_data {[field := PyObj (user request)]}.
Hypothesis Hperm : permitted vs request db.

Lemma list_outcome :
  lower (method request) ∈ ["get"; "head"; "options"] ->
  outcome vs field kwargs request db
          (ModelViewSet.list vs kwargs request db).
Proof. intros Hm. by apply out_read. Qed.

Lemma options_outcome :
  lower (method request) ∈ ["get"; "head"; "options"] ->
  outcome vs field kwargs request db
          (ModelViewSet.options vs kwargs request db).
Proof. intros Hm. by apply out_read. Qed.

Lemma retrieve_outcome :
  lower (method request) ∈ ["get"; "head"; "options"] ->
  outcome vs field kwargs request db
          (ModelViewSet.retrieve vs kwargs request db).
Proof.
  intros Hm. unfold ModelViewSet.retrieve.
  destruct (get_object_cases vs kwargs request db)
    as [[e Hget]|(pk & obj & _ & _ & _ & Hget)].
  - rewrite (bind_inl _ _ _ _ _ Hget). apply out_error.
  - rewrite (bind_inr _ _ _ _ _ Hget). by apply out_read.
Qed.

Lemma create_outcome :
  lower (method request) = "post" ->
  outcome vs field kwargs request db
          (ModelViewSet.create vs kwargs request db).
Proof.
  intros Hm.
  destruct (run_validation (serializer_class vs) false None (data request))
    as [validated_data|] eqn:Hvalid.
  - unfold ModelViewSet.create, is_valid. rewrite Hvalid.
    unfold bind at 1, ret at 1. rewrite Hfield.
    rewrite (bind_inr _ _ _ _ _ (save_create _ _ _ _)).
    by apply out_create.
  - rewrite create_invalid by done. apply out_error.
Qed.

Lemma update_outcome partial :
  lower (method request) ∈ ["put"; "patch"] ->
  outcome vs field kwargs request db
          (ModelViewSet.update partial vs kwargs request db).
Proof.
  intros Hm.
  destruct (get_object_cases vs kwargs request db)
    as [[e Hget]|(pk & obj & -> & Hrow & Hobj & _)].
  - unfold ModelViewSet.update.
    rewrite (bind_inl _ _ _ _ _ Hget). apply out_error.
  - destruct (run_validation (serializer_class vs) partial (Some obj)
                (data request)) as [validated_data|] eqn:Hvalid.
    + rewrite (update_run vs partial pk request db obj validated_data)
        by done.
      by apply (out_update _ _ _ _ _ partial pk obj).
    + rewrite (update_invalid vs partial pk request db obj) by done.
      apply out_error.
Qed.

Lemma destroy_outcome :
  lower (method request) = "delete" ->
  outcome vs field kwargs request db
          (ModelViewSet.destroy vs kwargs request db).
Proof.
  intros Hm.
  destruct (get_object_cases vs kwargs request db)
    as [[e Hget]|(pk & obj & -> & Hrow & Hobj & _)].
  - unfold ModelViewSet.destroy.
    rewrite (bind_inl _ _ _ _ _ Hget). apply out_error.
  - rewrite (destroy_run vs pk request db obj) by done.
    by apply (out_destroy _ _ _ _ _ pk obj).
Qed.
End Outcome.

Lemma view_sets_owner ser vs field :
  (vs, field) ∈ view_sets ser ->
  forall request validated_data,
    perform_create vs request validated_data =
    save None validated_data {[field := PyObj (user request)]}.
Proof.
  unfold view_sets. rewrite !elem_of_cons, elem_of_nil.
  by intros [[= -> ->]|[[= -> ->]|[[= -> ->]|[]]]].
Qed.

(** Whatever the method name, a request over a route of the router ends
    in one of the five outcomes. *)
Lemma view_outcome vs field route kwargs request db :
  (forall request validated_data,
     perform_create vs request validated_data =
     save None validated_data {[field := PyObj (user request)]}) ->
  route ∈ routes ->
  outcome vs field kwargs request db
          (view vs (mapping route) kwargs request db).
Proof.
  intros Hfield Hroute.
  destruct (check_each_cases (permission_classes vs)
              (fun p => has_permission p request) request db)
    as [Hperm|[e Hperm]].
  2: { rewrite (view_denied _ _ _ _ _ e Hperm). apply out_error. }
  rewrite (view_permitted _ _ _ _ _ Hperm).
  destruct (bool_decide (lower (method request) ∈ http_method_names));
    [|apply out_error].
  unfold routes in Hroute. rewrite !elem_of_cons, elem_of_nil in Hroute.
  destruct Hroute as [->|[->|[]]].
  - change (bind_head (mapping list_route))
      with [("get", action_list); ("post", action_create);
            ("head", action_list)].
    cbn [assoc].
    destruct (String.eqb_spec (lower (method request)) "get") as [Hm|_].
    { apply list_outcome; try done; rewrite Hm; set_solver. }
    destruct (String.eqb_spec (lower (method request)) "post") as [Hm|_].
    { by apply create_outcome. }
    destruct (String.eqb_spec (lower (method request)) "head") as [Hm|_].
    { apply list_outcome; try done; rewrite Hm; set_solver. }
    destruct (String.eqb_spec (lower (method request)) "options") as [Hm|_].
    { apply options_outcome; try done; rewrite Hm; set_solver. }
    apply out_error.
  - change (bind_head (mapping detail_route))
      with [("get", action_retrieve); ("put", action_update);
            ("patch", action_partial_update); ("delete", action_destroy);
            ("head", action_retrieve)].
    cbn [assoc].
    destruct (String.eqb_spec (lower (method request)) "get") as [Hm|_].
    { apply retrieve_outcome; try done; rewrite Hm; set_solver. }
    destruct (String.eqb_spec (lower (method request)) "put") as [Hm|_].
    { apply update_outcome; try done; rewrite Hm; set_solver. }
    destruct (String.eqb_spec (lower (method request)) "patch") as [Hm|_].
    { apply update_outcome; try done; rewrite Hm; set_solver. }
    destruct (String.eqb_spec (lower (method request)) "delete") as [Hm|_].
    { by apply destroy_outcome. }
    destruct (String.eqb_spec (lower (method request)) "head") as [Hm|_].
    { apply retrieve_outcome; try done; rewrite Hm; set_solver. }
    destruct (String.eqb_spec (lower (method request)) "options") as [Hm|_].
    { apply options_outcome; try done; rewrite Hm; set_solver. }
    apply out_error.
Qed.

(** ** Methods that read and methods that write *)

Lemma lower_safe (m : string) :
  m ∈ SAFE_METHODS -> lower m ∈ ["get"; "head"; "options"].
Proof.
  unfold SAFE_METHODS. rewrite !elem_of_cons, elem_of_nil.
  intros [->|[->|[->|[]]]]; simpl; set_solver.
Qed.

Lemma lower_write_unsafe (m : string) :
  lower m ∈ ["post"; "put"; "patch"; "delete"] -> m ∉ SAFE_METHODS.
Proof.
  intros Hw Hsafe%lower_safe.
  rewrite !elem_of_cons in Hw. rewrite !elem_of_cons in Hsafe.
  rewrite elem_of_nil in Hw. rewrite elem_of_nil in Hsafe.
  destruct Hw as [Hw|[Hw|[Hw|[Hw|[]]]]]; rewrite Hw in Hsafe;
    by destruct Hsafe as [?|[?|[?|[]]]].
Qed.

Lemma outcome_table vs field kwargs request db res db' :
  outcome vs field kwargs request db (res, db') ->
  db' = db \/
  (permitted vs request db /\
   lower (method request) ∈ ["post"; "put"; "patch"; "delete"]).
Proof.
  inversion 1; subst; [by left | by left | right | right | right];
    (split; [done|]).
  - match goal with H : lower _ = _ |- _ => rewrite H end.
    repeat constructor.
  - rewrite !elem_of_cons in *. tauto.
  - match goal with H : lower _ = _ |- _ => rewrite H end.
    repeat constructor.
Qed.

Lemma outcome_failure vs field kwargs request db e db' :
  outcome vs field kwargs request db (inl e, db') -> db' = db.
Proof. by inversion 1. Qed.

(** The fate of one existing row when the next key is unused. *)
Lemma outcome_row vs field kwargs request db res db' pk obj :
  outcome vs field kwargs request db (res, db') ->
  rows db !! next_pk db = None ->
  rows db !! pk = Some obj ->
  rows db' !! pk = Some obj \/
  (permitted vs request db /\ kwargs = Some pk /\
   object_permitted vs request obj db /\
   lower (method request) ∈ ["put"; "patch"; "delete"]).
Proof.
  intros Hout Hnext Hrow. inversion Hout; subst; simpl.
  - by left.
  - by left.
  - left. rewrite lookup_insert_ne; [done|]. congruence.
  - destruct (decide (pk0 = pk)) as [->|Hne].
    + right. assert (obj0 = obj) as -> by congruence.
      repeat split; try done. rewrite !elem_of_cons in *. tauto.
    + left. by rewrite lookup_insert_ne.
  - destruct (decide (pk0 = pk)) as [->|Hne].
    + right. assert (obj0 = obj) as -> by congruence.
      repeat split; try done.
      match goal with H : lower _ = _ |- _ => rewrite H end.
      repeat constructor.
    + left. by rewrite lookup_delete_ne.
Qed.

Lemma outcome_fresh vs field kwargs request db res db' :
  outcome vs field kwargs request db (res, db') ->
  fresh db -> fresh db' /\ next_pk db <= next_pk db'.
Proof.
  intros Hout Hfresh. inversion Hout; subst; simpl;
    try (split; [done|lia]).
  - split; [|lia]. intros k Hk; simpl in *.
    rewrite lookup_insert_ne by lia. apply Hfresh. lia.
  - split; [|lia]. intros k Hk; simpl in *.
    destruct (decide (pk = k)) as [->|Hne];
      [|rewrite lookup_insert_ne by done; by apply Hfresh].
    rewrite (Hfresh k Hk) in *. congruence.
  - split; [|lia]. intros k Hk; simpl in *.
    destruct (decide (pk = k)) as [->|Hne];
      [apply lookup_delete_eq|].
    rewrite lookup_delete_ne by done. by apply Hfresh.
Qed.

Lemma listing_permitted_unsafe ser request db :
  permitted (ListingViewSet.cls ser) request db ->
  method request ∉ SAFE_METHODS ->
  is_authenticated (user request) = true.
Proof.
  unfold permitted. rewrite check_permissions_listing.
  intros Hperm Hunsafe%is_safe_false. rewrite Hunsafe in Hperm.
  by destruct (is_authenticated (user request)).
Qed.

Lemma listing_object_permitted_unsafe ser request obj db :
  object_permitted (ListingViewSet.cls ser) request obj db ->
  method request ∉ SAFE_METHODS ->
  obj !! "host" = Some (PyObj (user request)).
Proof.
  unfold object_permitted. rewrite check_object_permissions_listing.
  intros Hobj Hunsafe. apply host_gate_unsafe; [done|].
  by destruct (IsHostOrReadOnly.has_object_permission request obj).
Qed.

Lemma view_sets_permitted_anonymous ser vs field request db :
  (vs, field) ∈ view_sets ser ->
  permitted vs request db ->
  user request = AnonymousUser ->
  method request ∈ SAFE_METHODS.
Proof.
  unfold view_sets, permitted. rewrite !elem_of_cons, elem_of_nil.
  intros [[= -> ->]|[[= -> ->]|[[= -> ->]|[]]]] Hperm Hanon.
  - rewrite check_permissions_listing, Hanon in Hperm. simpl in Hperm.
    rewrite orb_false_r in Hperm. apply is_safe_true.
    by destruct (is_safe (method request)).
  - by rewrite (check_permissions_authenticated_only _ _ _
                  (booking_authenticated_only ser)), Hanon in Hperm.
  - by rewrite (check_permissions_authenticated_only _ _ _
                  (review_authenticated_only ser)), Hanon in Hperm.
Qed.

(** ** What requests leave untouched *)

(** X1: a request to any of the three view sets that ends in an error
    has written nothing. *)
Theorem failed_request_leaves_table (ser : Serializer) (vs : ViewSet)
    (field : string) (route : Route) (kwargs : option Z)
    (request : Request) (db db' : Table) (e : APIException) :
  (vs, field) ∈ view_sets ser ->
  route ∈ routes ->
  view vs (mapping route) kwargs request db = (inl e, db') ->
  db' = db.
Proof.
  intros Hvs Hroute Hrun.
  pose proof (view_outcome vs field route kwargs request db
                (view_sets_owner ser vs field Hvs) Hroute) as Hout.
  rewrite Hrun in Hout. by apply outcome_failure in Hout.
Qed.

(** X2: a request with a safe method ([GET], [HEAD], [OPTIONS]) leaves
    the table as it was, whoever sends it and whatever it carries. *)
Theorem safe_method_leaves_table (ser : Serializer) (vs : ViewSet)
    (field : string) (route : Route) (kwargs : option Z)
    (request : Request) (db : Table) :
  (vs, field) ∈ view_sets ser ->
  route ∈ routes ->
  method request ∈ SAFE_METHODS ->
  snd (view vs (mapping route) kwargs request db) = db.
Proof.
  intros Hvs Hroute Hsafe.
  pose proof (view_outcome vs field route kwargs request db
                (view_sets_owner ser vs field Hvs) Hroute) as Hout.
  destruct (view vs (mapping route) kwargs request db) as [res db'].
  apply outcome_table in Hout as [->|[_ Hw]]; [done|].
  by destruct (lower_write_unsafe _ Hw).
Qed.

(** X3: no request of an anonymous caller changes the table of any of
    the three view sets, whatever method name it uses. *)
Theorem anonymous_leaves_table (ser : Serializer) (vs : ViewSet)
    (field : string) (route : Route) (kwargs : option Z)
    (request : Request) (db : Table) :
  (vs, field) ∈ view_sets ser ->
  route ∈ routes ->
  user request = AnonymousUser ->
  snd (view vs (mapping route) kwargs request db) = db.
Proof.
  intros Hvs Hroute Hanon.
  pose proof (view_outcome vs field route kwargs request db
                (view_sets_owner ser vs field Hvs) Hroute) as Hout.
  destruct (view vs (mapping route) kwargs request db) as [res db'].
  apply outcome_table in Hout as [->|[Hperm Hw]]; [done|].
  destruct (lower_write_unsafe _ Hw).
  by apply (view_sets_permitted_anonymous ser vs field request db).
Qed.

(** X4: when a request changes or removes an existing listing, the
    caller is authenticated and is the host of that listing; this holds
    for every serializer and every method name. *)
Theorem listing_changed_only_by_host (ser : Serializer) (route : Route)
    (kwargs : option Z) (request : Request) (db : Table) (pk : Z)
    (obj : attrs) :
  route ∈ routes ->
  rows db !! next_pk db = None ->
  rows db !! pk = Some obj ->
  rows (snd (view (ListingViewSet.cls ser) (mapping route) kwargs request db))
    !! pk ≠ Some obj ->
  obj !! "host" = Some (PyObj (user request)) /\
  is_authenticated (user request) = true.
Proof.
  intros Hroute Hnext Hrow Hchanged.
  pose proof (view_outcome (ListingViewSet.cls ser) "host" route kwargs
                request db (fun _ _ => eq_refl) Hroute) as Hout.
  destruct (view (ListingViewSet.cls ser) (mapping route) kwargs request db)
    as [res db'].
  destruct (outcome_row _ _ _ _ _ _ _ _ _ Hout Hnext Hrow)
    as [Hsame|(Hperm & _ & Hobj & Hw)]; [done|].
  assert (method request ∉ SAFE_METHODS) as Hunsafe
    by (apply lower_write_unsafe; rewrite !elem_of_cons in *; tauto).
  split.
  - by apply (listing_object_permitted_unsafe ser request obj db).
  - by apply (listing_permitted_unsafe ser request db).
Qed.

(** ** Sequences of requests *)

Lemma fresh_next (db : Table) : fresh db -> rows db !! next_pk db = None.
Proof. intros Hfresh. apply Hfresh. lia. Qed.

Lemma fresh_below (db : Table) pk obj :
  fresh db -> rows db !! pk = Some obj -> pk < next_pk db.
Proof.
  intros Hfresh Hrow. destruct (Z.lt_ge_cases pk (next_pk db)) as [|Hge];
    [done|]. rewrite (Hfresh pk Hge) in Hrow. discriminate.
Qed.

Lemma step_outcome vs field db c :
  (forall request validated_data,
     perform_create vs request validated_data =
     save None validated_data {[field := PyObj (user request)]}) ->
  call_route c ∈ routes ->
  exists res,
    outcome vs field (call_kwargs c) (call_request c) db (res, step vs db c).
Proof.
  intros Hfield Hroute. unfold step.
  pose proof (view_outcome vs field (call_route c) (call_kwargs c)
                (call_request c) db Hfield Hroute) as Hout.
  destruct (view vs (mapping (call_route c)) (call_kwargs c)
              (call_request c) db) as [res db'].
  by exists res.
Qed.

(** X5: however many requests arrive, and in whatever order, as long as
    none of them comes from the host of a listing, that listing stays in
    the table exactly as it was. *)
Theorem listing_untouched_by_others (ser : Serializer) (calls : list Call)
    (db : Table) (pk : Z) (obj : attrs) :
  fresh db ->
  rows db !! pk = Some obj ->
  Forall (fun c => call_route c ∈ routes /\
                   obj !! "host" ≠ Some (PyObj (user (call_request c))))
         calls ->
  rows (run (ListingViewSet.cls ser) calls db) !! pk = Some obj.
Proof.
  intros Hfresh Hrow Hcalls. revert db Hfresh Hrow.
  induction Hcalls as [|c calls [Hroute Hother] _ IH]; intros db Hfresh Hrow;
    [done|].
  unfold run; simpl. apply IH.
  - destruct (step_outcome (ListingViewSet.cls ser) "host" db c
                (fun _ _ => eq_refl) Hroute) as [res Hout].
    by apply (outcome_fresh _ _ _ _ _ _ _ Hout).
  - destruct (step_outcome (ListingViewSet.cls ser) "host" db c
                (fun _ _ => eq_refl) Hroute) as [res Hout].
    destruct (outcome_row _ _ _ _ _ _ _ pk obj Hout (fresh_next db Hfresh) Hrow)
      as [Hsame|(_ & _ & Hobj & Hw)]; [done|].
    destruct Hother.
    apply (listing_object_permitted_unsafe ser _ obj db Hobj).
    apply lower_write_unsafe. rewrite !elem_of_cons in *. tauto.
Qed.

Lemma outcome_host ser kwargs request db res db' pk (h : option pyval) :
  outcome (ListingViewSet.cls ser) "host" kwargs request db (res, db') ->
  host_read_only ser ->
  pk < next_pk db ->
  (forall o, rows db !! pk = Some o -> o !! "host" = h) ->
  forall o, rows db' !! pk = Some o -> o !! "host" = h.
Proof.
  intros Hout Hro Hlt Hinv o. inversion Hout; subst; simpl in *.
  - apply Hinv.
  - apply Hinv.
  - rewrite lookup_insert_ne by lia. apply Hinv.
  - destruct (decide (pk0 = pk)) as [->|Hne].
    + rewrite lookup_insert_eq. intros [= <-].
      rewrite lookup_union_r by eauto. by apply Hinv.
    + rewrite lookup_insert_ne by done. apply Hinv.
  - destruct (decide (pk0 = pk)) as [->|Hne].
    + by rewrite lookup_delete_eq.
    + rewrite lookup_delete_ne by done. apply Hinv.
Qed.

Lemma run_host ser calls pk (h : option pyval) :
  host_read_only ser ->
  Forall (fun c => call_route c ∈ routes) calls ->
  forall db,
    fresh db -> pk < next_pk db ->
    (forall o, rows db !! pk = Some o -> o !! "host" = h) ->
    forall o,
      rows (run (ListingViewSet.cls ser) calls db) !! pk = Some o ->
      o !! "host" = h.
Proof.
  intros Hro Hcalls.
  induction Hcalls as [|c calls Hroute _ IH]; intros db Hfresh Hlt Hinv;
    [done|].
  unfold run; simpl.
  destruct (step_outcome (ListingViewSet.cls ser) "host" db c
              (fun _ _ => eq_refl) Hroute) as [res Hout].
  destruct (outcome_fresh _ _ _ _ _ _ _ Hout Hfresh) as [Hfresh' Hle].
  apply IH; [done | lia |].
  by apply (outcome_host ser (call_kwargs c) (call_request c) db res).
Qed.

(** X6: with a serializer that never lets [host] through, a listing
    keeps its host over any sequence of requests for as long as it
    exists; its key is not handed out again after a delete. *)
Theorem listing_host_fixed (ser : Serializer) (calls : list Call)
    (db : Table) (pk : Z) (obj obj' : attrs) :
  host_read_only ser ->
  fresh db ->
  Forall (fun c => call_route c ∈ routes) calls ->
  rows db !! pk = Some obj ->
  rows (run (ListingViewSet.cls ser) calls db) !! pk = Some obj' ->
  obj' !! "host" = obj !! "host".
Proof.
  intros Hro Hfresh Hcalls Hrow.
  apply (run_host ser calls pk (obj !! "host") Hro Hcalls db Hfresh).
  - by apply (fresh_below db pk obj).
  - intros o Ho. congruence.
Qed.

(** ** Who may change a listing *)

Lemma view_put vs kwargs request db :
  permitted vs request db -> method request = "PUT" ->
  view vs (mapping detail_route) kwargs request db =
  ModelViewSet.update false vs kwargs request db.
Proof.
  intros Hperm Hm.
  apply (view_bound vs _ kwargs request db "put" action_update Hperm);
    [by rewrite Hm | dispatch_literal | dispatch_literal].
Qed.

Lemma view_patch vs kwargs request db :
  permitted vs request db -> method request = "PATCH" ->
  view vs (mapping detail_route) kwargs request db =
  ModelViewSet.update true vs kwargs request db.
Proof.
  intros Hperm Hm.
  apply (view_bound vs _ kwargs request db "patch" action_partial_update Hperm);
    [by rewrite Hm | dispatch_literal | dispatch_literal].
Qed.

Lemma view_delete vs kwargs request db :
  permitted vs request db -> method request = "DELETE" ->
  view vs (mapping detail_route) kwargs request db =
  ModelViewSet.destroy vs kwargs request db.
Proof.
  intros Hperm Hm.
  apply (view_bound vs _ kwargs request db "delete" action_destroy Hperm);
    [by rewrite Hm | dispatch_literal | dispatch_literal].
Qed.

Lemma view_get_detail vs kwargs request db :
  permitted vs request db -> method request = "GET" ->
  view vs (mapping detail_route) kwargs request db =
  ModelViewSet.retrieve vs kwargs request db.
Proof.
  intros Hperm Hm.
  apply (view_bound vs _ kwargs request db "get" action_retrieve Hperm);
    [by rewrite Hm | dispatch_literal | dispatch_literal].
Qed.

(** On a detail route the four methods all begin with the object lookup,
    so they fail with whatever the lookup fails with. *)
Lemma view_detail_lookup_fails vs kwargs request db e :
  permitted vs request db ->
  method request ∈ ["GET"; "PUT"; "PATCH"; "DELETE"] ->
  ModelViewSet.get_object vs kwargs request db = (inl e, db) ->
  view vs (mapping detail_route) kwargs request db = (inl e, db).
Proof.
  intros Hperm Hm Hget. rewrite !elem_of_cons, elem_of_nil in Hm.
  destruct Hm as [Hm|[Hm|[Hm|[Hm|[]]]]].
  - rewrite view_get_detail by done. by apply bind_inl.
  - rewrite view_put by done. by apply bind_inl.
  - rewrite view_patch by done. by apply bind_inl.
  - rewrite view_delete by done. by apply bind_inl.
Qed.

Lemma write_methods_unsafe (m : string) :
  m ∈ ["POST"; "PUT"; "PATCH"; "DELETE"] -> m ∉ SAFE_METHODS.
Proof.
  rewrite !elem_of_cons, elem_of_nil.
  intros [->|[->|[->|[->|[]]]]]; apply lower_write_unsafe;
    simpl; repeat constructor.
Qed.

Lemma listing_permitted_authenticated ser request db :
  is_authenticated (user request) = true ->
  permitted (ListingViewSet.cls ser) request db.
Proof.
  intros Hauth. unfold permitted.
  by rewrite check_permissions_listing, Hauth, orb_true_r.
Qed.

Lemma permission_denied_authenticated request :
  is_Some (successful_authenticator request) ->
  ModelViewSet.permission_denied request = PermissionDenied.
Proof.
  intros Hsome. unfold ModelViewSet.permission_denied.
  by rewrite (bool_decide_eq_true_2 _ Hsome), andb_false_r.
Qed.

(** X7: on an existing listing of host [h], a [PUT], [PATCH] or [DELETE]
    of another authenticated user is refused before the payload is
    looked at, with [PermissionDenied] once an authenticator accepted the
    caller, and the table stays as it was; the host's [DELETE] removes
    the row, the host's valid [PUT] or [PATCH] lays the validated fields
    over it, and the host's invalid one is a [ValidationError]. *)
Theorem listing_owner_gate (ser : Serializer) (request : Request)
    (db : Table) (pk h c : Z) (obj : attrs) :
  rows db !! pk = Some obj ->
  obj !! "host" = Some (PyObj (ModelUser h)) ->
  user request = ModelUser c ->
  method request ∈ ["PUT"; "PATCH"; "DELETE"] ->
  let run := view (ListingViewSet.cls ser) (mapping detail_route) (Some pk)
                  request db in
  let partial := bool_decide (method request = "PATCH") in
  (c ≠ h ->
     run = (inl (ModelViewSet.permission_denied request), db) /\
     (is_Some (successful_authenticator request) ->
      ModelViewSet.permission_denied request = PermissionDenied)) /\
  (c = h -> method request = "DELETE" ->
     run = (inr {| resp_data := NoBody; status := 204 |},
            {| rows := delete pk (rows db); next_pk := next_pk db |})) /\
  (c = h -> method request ≠ "DELETE" ->
     forall validated_data,
       run_validation ser partial (Some obj) (data request)
         = Some validated_data ->
       run = (inr {| resp_data := One (to_representation ser
                                         (validated_data ∪ obj));
                     status := 200 |},
              {| rows := <[pk := validated_data ∪ obj]> (rows db);
                 next_pk := next_pk db |})) /\
  (c = h -> method request ≠ "DELETE" ->
     run_validation ser partial (Some obj) (data request) = None ->
     run = (inl ValidationError, db)).
Proof.
  intros Hrow Hhost Huser Hm run partial. subst run partial.
  set (vs := ListingViewSet.cls ser).
  assert (permitted vs request db) as Hperm
    by (apply listing_permitted_authenticated; by rewrite Huser).
  assert (method request ∉ SAFE_METHODS) as Hunsafe
    by (apply write_methods_unsafe; rewrite !elem_of_cons in *; tauto).
  assert (method request ∈ ["GET"; "PUT"; "PATCH"; "DELETE"]) as Hm4
    by (rewrite !elem_of_cons in *; tauto).
  split; [|split; [|split]].
  - intros Hne. split; [|apply permission_denied_authenticated].
    apply view_detail_lookup_fails; try done.
    apply (get_object_refused vs pk request db obj); [done|].
    unfold vs. rewrite check_object_permissions_listing.
    destruct (IsHostOrReadOnly.has_object_permission request obj) eqn:Hhop;
      [|done].
    apply host_gate_unsafe in Hhop; [|done].
    rewrite Hhost, Huser in Hhop. congruence.
  - intros -> Hdel. rewrite view_delete by done.
    apply (destroy_run vs pk request db obj Hrow).
    unfold vs, object_permitted.
    rewrite check_object_permissions_listing.
    replace (IsHostOrReadOnly.has_object_permission request obj) with true;
      [done|].
    symmetry. apply host_gate_unsafe; [done|]. by rewrite Hhost, Huser.
  - intros -> Hnd validated_data Hvalid.
    assert (object_permitted vs request obj db) as Hobj.
    { unfold vs, object_permitted.
      rewrite check_object_permissions_listing.
      replace (IsHostOrReadOnly.has_object_permission request obj) with true;
        [done|].
      symmetry. apply host_gate_unsafe; [done|]. by rewrite Hhost, Huser. }
    rewrite !elem_of_cons, elem_of_nil in Hm.
    destruct Hm as [Hm|[Hm|[Hm|[]]]]; [| |done].
    + rewrite Hm in Hvalid. rewrite view_put by done.
      by apply (update_run vs false pk request db obj).
    + rewrite Hm in Hvalid. rewrite view_patch by done.
      by apply (update_run vs true pk request db obj).
  - intros -> Hnd Hvalid.
    assert (object_permitted vs request obj db) as Hobj.
    { unfold vs, object_permitted.
      rewrite check_object_permissions_listing.
      replace (IsHostOrReadOnly.has_object_permission request obj) with true;
        [done|].
      symmetry. apply host_gate_unsafe; [done|]. by rewrite Hhost, Huser. }
    rewrite !elem_of_cons, elem_of_nil in Hm.
    destruct Hm as [Hm|[Hm|[Hm|[]]]]; [| |done].
    + rewrite Hm in Hvalid. rewrite view_put by done.
      by apply (update_invalid vs false pk request db obj).
    + rewrite Hm in Hvalid. rewrite view_patch by done.
      by apply (update_invalid vs true pk request db obj).
Qed.

Lemma view_sets_permitted_authenticated ser vs field request db :
  (vs, field) ∈ view_sets ser ->
  is_authenticated (user request) = true ->
  permitted vs request db.
Proof.
  unfold view_sets, permitted. rewrite !elem_of_cons, elem_of_nil.
  intros [[= -> ->]|[[= -> ->]|[[= -> ->]|[]]]] Hauth.
  - by apply listing_permitted_authenticated.
  - by rewrite (check_permissions_authenticated_only _ _ _
                  (booking_authenticated_only ser)), Hauth.
  - by rewrite (check_permissions_authenticated_only _ _ _
                  (review_authenticated_only ser)), Hauth.
Qed.

(** X8: for an authenticated caller, [GET], [PUT], [PATCH] and
    [DELETE] of a key that is not in the table end in [NotFound] on each
    of the three view sets, before any validation, and write nothing. *)
Theorem missing_row_not_found (ser : Serializer) (vs : ViewSet)
    (field : string) (request : Request) (db : Table) (pk : Z) :
  (vs, field) ∈ view_sets ser ->
  is_authenticated (user request) = true ->
  method request ∈ ["GET"; "PUT"; "PATCH"; "DELETE"] ->
  rows db !! pk = None ->
  view vs (mapping detail_route) (Some pk) request db = (inl NotFound, db).
Proof.
  intros Hvs Hauth Hm Hrow.
  apply view_detail_lookup_fails; try done.
  - by apply (view_sets_permitted_authenticated ser vs field).
  - by apply get_object_missing.
Qed.

Lemma listing_host_object_permitted ser request obj db :
  method request ∉ SAFE_METHODS ->
  obj !! "host" = Some (PyObj (user request)) ->
  object_permitted (ListingViewSet.cls ser) request obj db.
Proof.
  intros Hunsafe Hhost. unfold object_permitted.
  rewrite check_object_permissions_listing.
  by rewrite (proj2 (host_gate_unsafe request obj Hunsafe) Hhost).
Qed.

Lemma listing_other_object_refused ser request obj db :
  method request ∉ SAFE_METHODS ->
  obj !! "host" ≠ Some (PyObj (user request)) ->
  ModelViewSet.check_object_permissions (ListingViewSet.cls ser) request obj db
    = (inl (ModelViewSet.permission_denied request), db).
Proof.
  intros Hunsafe Hhost. rewrite check_object_permissions_listing.
  destruct (IsHostOrReadOnly.has_object_permission request obj) eqn:Hhop;
    [|done].
  by apply host_gate_unsafe in Hhop.
Qed.

Lemma listing_owner_gate_parts ser request db pk h c obj :
  rows db !! pk = Some obj ->
  obj !! "host" = Some (PyObj (ModelUser h)) ->
  user request = ModelUser c ->
  method request ∈ ["PUT"; "PATCH"; "DELETE"] ->
  (c ≠ h ->
     view (ListingViewSet.cls ser) (mapping detail_route) (Some pk) request db
       = (inl (ModelViewSet.permission_denied request), db)) /\
  (c = h -> method request = "DELETE" ->
     view (ListingViewSet.cls ser) (mapping detail_route) (Some pk) request db
       = (inr {| resp_data := NoBody; status := 204 |},
          {| rows := delete pk (rows db); next_pk := next_pk db |})).
Proof.
  intros Hrow Hhost Huser Hm.
  assert (permitted (ListingViewSet.cls ser) request db) as Hperm
    by (apply listing_permitted_authenticated; by rewrite Huser).
  assert (method request ∉ SAFE_METHODS) as Hunsafe
    by (apply write_methods_unsafe; rewrite !elem_of_cons in *; tauto).
  split.
  - intros Hne. apply view_detail_lookup_fails; try done.
    + rewrite !elem_of_cons in *; tauto.
    + apply (get_object_refused _ pk request db obj _ Hrow).
      apply listing_other_object_refused; [done|].
      rewrite Hhost, Huser. congruence.
  - intros -> Hdel. rewrite view_delete by done.
    apply (destroy_run _ pk request db obj Hrow).
    apply listing_host_object_permitted; [done|]. by rewrite Hhost, Huser.
Qed.

(** ** Creating, then reading and deleting *)

Lemma listing_post ser request db a validated_data :
  user request = ModelUser a ->
  method request = "POST" ->
  run_validation ser false None (data request) = Some validated_data ->
  view (ListingViewSet.cls ser) (mapping list_route) None request db =
  (inr {| resp_data :=
            One (to_representation ser
                   (<["host" := PyObj (ModelUser a)]> validated_data));
          status := 201 |},
   {| rows := <[next_pk db := <["host" := PyObj (ModelUser a)]> validated_data]>
                (rows db);
      next_pk := next_pk db + 1 |}).
Proof.
  intros Huser Hm Hvalid.
  rewrite (view_bound _ _ None request db "post" action_create
             (listing_permitted_authenticated ser request db
                ltac:(by rewrite Huser)));
    [| by rewrite Hm | dispatch_literal | dispatch_literal].
  rewrite <- Huser.
  by apply (create_assigns (ListingViewSet.cls ser) "host").
Qed.

(** X9: a listing created by user [a] can at once be read by anybody,
    an anonymous caller included, under the key the table handed out,
    and what is read back is the validated data with [a] as host. *)
Theorem listing_create_then_retrieve (ser : Serializer)
    (request reader : Request) (db : Table) (a : Z) (validated_data : attrs) :
  user request = ModelUser a ->
  method request = "POST" ->
  run_validation ser false None (data request) = Some validated_data ->
  method reader = "GET" ->
  let created :=
    snd (view (ListingViewSet.cls ser) (mapping list_route) None request db) in
  view (ListingViewSet.cls ser) (mapping detail_route) (Some (next_pk db))
       reader created =
  (inr {| resp_data :=
            One (to_representation ser
                   (<["host" := PyObj (ModelUser a)]> validated_data));
          status := 200 |},
   created).
Proof.
  intros Huser Hm Hvalid Hget created. subst created.
  rewrite (listing_post ser request db a validated_data) by done.
  cbn [snd]. rewrite (listing_retrieve ser reader _ (next_pk db) Hget).
  cbn [rows]. by rewrite lookup_insert_eq.
Qed.

(** X10: the listing user [a] has just created is deleted by a
    [DELETE] of [a], which puts the rows back as they were before the
    create when the key was unused, while the same [DELETE] by another
    authenticated user is refused and leaves the new listing in place. *)
Theorem listing_creator_controls (ser : Serializer)
    (request other : Request) (db : Table) (a b : Z)
    (validated_data : attrs) :
  user request = ModelUser a ->
  method request = "POST" ->
  run_validation ser false None (data request) = Some validated_data ->
  method other = "DELETE" ->
  user other = ModelUser b ->
  let created :=
    snd (view (ListingViewSet.cls ser) (mapping list_route) None request db) in
  let deleted :=
    view (ListingViewSet.cls ser) (mapping detail_route) (Some (next_pk db))
         other created in
  (b = a ->
     fst deleted = inr {| resp_data := NoBody; status := 204 |} /\
     rows (snd deleted) !! next_pk db = None /\
     (rows db !! next_pk db = None -> rows (snd deleted) = rows db)) /\
  (b ≠ a ->
     deleted = (inl (ModelViewSet.permission_denied other), created)).
Proof.
  intros Huser Hm Hvalid Hdel Hother created deleted.
  subst deleted created.
  rewrite (listing_post ser request db a validated_data) by done.
  cbn [snd].
  set (row := <["host" := PyObj (ModelUser a)]> validated_data).
  set (db1 := {| rows := <[next_pk db := row]> (rows db);
                 next_pk := next_pk db + 1 |}).
  assert (rows db1 !! next_pk db = Some row) as Hrow
    by apply lookup_insert_eq.
  assert (row !! "host" = Some (PyObj (ModelUser a))) as Hhost
    by apply lookup_insert_eq.
  assert (method other ∈ ["PUT"; "PATCH"; "DELETE"]) as Hm3
    by (rewrite Hdel; repeat constructor).
  destruct (listing_owner_gate_parts ser other db1 (next_pk db) a b row
              Hrow Hhost Hother Hm3) as [Hrefuse Haccept].
  split.
  - intros ->. rewrite (Haccept eq_refl Hdel). cbn [fst snd rows].
    split; [done|]. split; [apply lookup_delete_eq|].
    intros Hunused. unfold db1; cbn [rows].
    rewrite delete_insert_eq. by apply delete_id.
  - intros Hne. by apply Hrefuse.
Qed.

(** ** What the router resolves *)

Lemma strip_prefix_Some (p s r : string) :
  strip_prefix p s = Some r -> s = p +:+ r.
Proof.
  revert s. induction p as [|a p IH]; intros [|b s]; simpl; try done.
  - by intros [= <-].
  - by intros [= <-].
  - destruct (Ascii.eqb_spec a b) as [->|]; [|done].
    intros Hs%IH. by subst.
Qed.

Lemma span_lookup_inv (s seg tail : string) :
  span_lookup s = (seg, tail) ->
  s = seg +:+ tail /\ no_slash_dot seg = true.
Proof.
  revert seg tail. induction s as [|c s IH]; intros seg tail; simpl.
  - by intros [= <- <-].
  - destruct (Ascii.eqb c "/" || Ascii.eqb c ".") eqn:Hc.
    + by intros [= <- <-].
    + destruct (span_lookup s) as [seg' tail'].
      destruct (IH seg' tail' eq_refl) as [-> Hseg].
      intros [= <- <-]. simpl. by rewrite Hc, Hseg.
Qed.

Lemma after_slash {A} (rest : string) (f : string -> option A) (r : A) :
  match rest with
  | String "/" rest' => f rest'
  | _ => None
  end = Some r ->
  exists rest', rest = String "/" rest' /\ f rest' = Some r.
Proof.
  destruct rest as [|c rest']; [done|].
  destruct c as [[] [] [] [] [] [] [] []]; try done. eauto.
Qed.

Lemma append_nonempty (p s : string) :
  p ≠ EmptyString -> p +:+ s ≠ EmptyString.
Proof. by destruct p. Qed.

(** A list route matches the prefix followed by one slash, and nothing
    else. *)
Lemma match_pattern_list p path kw :
  detail (pat_route p) = false ->
  match_pattern p path = Some kw <->
  path = pat_prefix p +:+ "/" /\ kw = None.
Proof.
  intros Hd. unfold match_pattern. rewrite Hd. split.
  - destruct (strip_prefix (pat_prefix p) path) as [rest|] eqn:Hstrip;
      [|done].
    apply strip_prefix_Some in Hstrip as ->.
    destruct (String.eqb_spec rest "/") as [->|]; [|done].
    by intros [= <-].
  - intros [-> ->]. by rewrite strip_prefix_app.
Qed.

(** A detail route matches the prefix, a slash, a lookup value and a
    closing slash, and nothing else; it captures the lookup value. *)
Lemma match_pattern_detail p path kw :
  detail (pat_route p) = true ->
  match_pattern p path = Some kw <->
  exists pk,
    lookup_value pk /\
    path = pat_prefix p +:+ "/" +:+ pk +:+ "/" /\ kw = Some pk.
Proof.
  intros Hd. unfold match_pattern. rewrite Hd. split.
  - destruct (strip_prefix (pat_prefix p) path) as [rest|] eqn:Hstrip;
      [|done].
    apply strip_prefix_Some in Hstrip as ->.
    intros (rest' & -> & Hm)%after_slash.
    destruct (span_lookup rest') as [seg tail] eqn:Hspan.
    apply span_lookup_inv in Hspan as [-> Hseg].
    destruct (String.eqb_spec seg EmptyString) as [|Hne]; [done|].
    destruct (String.eqb_spec tail "/") as [->|]; [|done].
    injection Hm as <-. exists seg. by repeat split.
  - intros (pk & [Hne Hpk] & -> & ->).
    rewrite strip_prefix_app. simpl.
    change (EmptyString +:+ pk +:+ "/") with (pk +:+ "/").
    rewrite (span_lookup_app pk EmptyString Hpk).
    by apply String.eqb_neq in Hne as ->.
Qed.

(** X11: among the paths without a dot, the router resolves exactly
    three kinds: [listings/] to the list route of the listing view set,
    [listings/{pk}/] with a non-empty [pk] free of slashes to its detail
    route with [pk] captured, and the empty path to the API root; every
    other path without a dot, anything under another prefix included,
    resolves to nothing.  (Paths with a dot may match a format-suffix
    pattern and are outside this statement.) *)
Theorem urlpatterns_resolves (ser : Serializer) (path : string)
    (m : ResolverMatch) :
  no_dot path = true ->
  urlpatterns ser path = Some m <->
  (path = "listings/" /\
   m = MatchViewSet
         {| pat_prefix := "listings"; pat_route := list_route;
            pat_viewset := ListingViewSet.cls ser;
            pat_name := "listing-list" |} None) \/
  (exists pk,
     lookup_value pk /\
     path = "listings/" +:+ pk +:+ "/" /\
     m = MatchViewSet
           {| pat_prefix := "listings"; pat_route := detail_route;
              pat_viewset := ListingViewSet.cls ser;
              pat_name := "listing-detail" |} (Some pk)) \/
  (path = EmptyString /\ m = MatchApiRoot).
Proof.
  intros _. unfold urlpatterns, resolve. rewrite get_urls_router.
  set (lp := {| pat_prefix := "listings"; pat_route := list_route;
                pat_viewset := ListingViewSet.cls ser;
                pat_name := "listing-list" |}).
  set (dp := {| pat_prefix := "listings"; pat_route := detail_route;
                pat_viewset := ListingViewSet.cls ser;
                pat_name := "listing-detail" |}).
  cbn [resolve_in].
  assert (forall pk, lookup_value pk ->
            match_pattern lp ("listings/" +:+ pk +:+ "/") = None) as Hnot_list.
  { intros pk [Hne _].
    destruct (match_pattern lp ("listings/" +:+ pk +:+ "/")) as [kw|] eqn:Hl;
      [|done].
    apply match_pattern_list in Hl as [Hp _]; [|done].
    simpl in Hp. injection Hp as Hp. by destruct pk. }
  assert (forall pk, lookup_value pk ->
            match_pattern dp ("listings/" +:+ pk +:+ "/") = Some (Some pk))
    as Hdetail.
  { intros pk Hpk. apply match_pattern_detail; [done|]. by exists pk. }
  split.
  - destruct (match_pattern lp path) as [kw|] eqn:Hl.
    { apply match_pattern_list in Hl as [-> ->]; [|done].
      intros [= <-]. by left. }
    destruct (match_pattern dp path) as [kw|] eqn:Hd.
    { apply match_pattern_detail in Hd as (pk & Hpk & -> & ->); [|done].
      intros [= <-]. right; left. by exists pk. }
    destruct (String.eqb_spec path EmptyString) as [->|Hne]; [|done].
    intros [= <-]. by right; right.
  - intros [[-> ->]|[(pk & Hpk & -> & ->)|[-> ->]]].
    + reflexivity.
    + by rewrite (Hnot_list pk Hpk), (Hdetail pk Hpk).
    + reflexivity.
Qed.

(** ** One row at a time *)

(** X12: a request touches at most the row its URL addresses and the
    row under the next key; every other row is afterwards what it was
    before. *)
Theorem request_touches_one_row (ser : Serializer) (vs : ViewSet)
    (field : string) (route : Route) (kwargs : option Z)
    (request : Request) (db : Table) (k : Z) :
  (vs, field) ∈ view_sets ser ->
  route ∈ routes ->
  k ≠ next_pk db ->
  kwargs ≠ Some k ->
  rows (snd (view vs (mapping route) kwargs request db)) !! k = rows db !! k.
Proof.
  intros Hvs Hroute Hnext Hkw.
  pose proof (view_outcome vs field route kwargs request db
                (view_sets_owner ser vs field Hvs) Hroute) as Hout.
  destruct (view vs (mapping route) kwargs request db) as [res db'].
  inversion Hout; subst; simpl; try done.
  - by rewrite lookup_insert_ne.
  - rewrite lookup_insert_ne; [done|]. congruence.
  - rewrite lookup_delete_ne; [done|]. congruence.
Qed.

(** ** The further statements at the sample data *)

Lemma sample_listings_fresh : fresh sample_listings.
Proof.
  intros k Hk. simpl in *. apply lookup_singleton_ne. lia.
Qed.

Lemma listing_serializer_host_read_only fields_valid :
  host_read_only (ListingSerializer fields_valid).
Proof.
  intros partial instance payload validated_data. simpl.
  destruct (fields_valid partial payload); [|done].
  intros [= <-]. apply lookup_delete_eq.
Qed.

Lemma failed_request_leaves_table_witness :
  snd (view (ListingViewSet.cls plain_serializer) (mapping list_route) None
            (anonymous_request "POST") sample_listings) = sample_listings.
Proof.
  destruct (view (ListingViewSet.cls plain_serializer) (mapping list_route)
                 None (anonymous_request "POST") sample_listings)
    as [[e|resp] db'] eqn:Hrun; [|vm_compute in Hrun; discriminate].
  apply (failed_request_leaves_table plain_serializer
           (ListingViewSet.cls plain_serializer) "host" list_route None
           (anonymous_request "POST") sample_listings db' e);
    [repeat constructor | repeat constructor | exact Hrun].
Defined.

Lemma safe_method_leaves_table_witness :
  snd (view (BookingViewSet.cls plain_serializer) (mapping detail_route)
            (Some 1) (user_request "HEAD" 3) sample_bookings)
    = sample_bookings.
Proof.
  apply (safe_method_leaves_table plain_serializer
           (BookingViewSet.cls plain_serializer) "guest");
    [repeat constructor | repeat constructor | compute_done].
Defined.

Lemma anonymous_leaves_table_witness :
  snd (view (ListingViewSet.cls plain_serializer) (mapping detail_route)
            (Some 1) (anonymous_request "DELETE") sample_listings)
    = sample_listings.
Proof.
  apply (anonymous_leaves_table plain_serializer
           (ListingViewSet.cls plain_serializer) "host");
    [repeat constructor | repeat constructor | reflexivity].
Defined.

Lemma listing_changed_only_by_host_witness :
  rows (snd (view (ListingViewSet.cls plain_serializer) (mapping detail_route)
                  (Some 1) (user_request "DELETE" 7) sample_listings)) !! 1
    = None /\
  sample_listing !! "host" = Some (PyObj (user (user_request "DELETE" 7))) /\
  is_authenticated (user (user_request "DELETE" 7)) = true.
Proof.
  split; [reflexivity|].
  apply (listing_changed_only_by_host plain_serializer detail_route (Some 1)
           (user_request "DELETE" 7) sample_listings 1 sample_listing);
    [repeat constructor | reflexivity | reflexivity |].
  intros H. vm_compute in H. discriminate.
Defined.

Lemma listing_untouched_by_others_witness :
  rows (run (ListingViewSet.cls plain_serializer) foreign_calls sample_listings)
    !! 1 = Some sample_listing.
Proof.
  apply (listing_untouched_by_others plain_serializer foreign_calls
           sample_listings 1 sample_listing sample_listings_fresh eq_refl).
  repeat (constructor;
          [split; [repeat constructor
                  | intros H; vm_compute in H; discriminate]|]).
  constructor.
Defined.

Lemma listing_host_fixed_witness :
  exists obj',
    rows (run (ListingViewSet.cls (ListingSerializer any_fields)) host_calls
              sample_listings) !! 1 = Some obj' /\
    obj' !! "title" = Some (PyStr "Hut") /\
    obj' !! "host" = Some (PyObj (ModelUser 7)).
Proof.
  destruct (rows (run (ListingViewSet.cls (ListingSerializer any_fields))
                      host_calls sample_listings) !! 1)
    as [obj'|] eqn:Hrow; [|vm_compute in Hrow; discriminate].
  exists obj'. split; [reflexivity|]. split.
  - vm_compute in Hrow. injection Hrow as <-. reflexivity.
  - rewrite (listing_host_fixed (ListingSerializer any_fields) host_calls
               sample_listings 1 sample_listing obj'
               (listing_serializer_host_read_only any_fields)
               sample_listings_fresh
               ltac:(repeat (constructor; [repeat constructor|]); constructor)
               eq_refl Hrow).
    reflexivity.
Defined.

Lemma listing_owner_gate_witness :
  view (ListingViewSet.cls plain_serializer) (mapping detail_route) (Some 1)
       (user_request "DELETE" 3) sample_listings
    = (inl PermissionDenied, sample_listings) /\
  view (ListingViewSet.cls plain_serializer) (mapping detail_route) (Some 1)
       (user_request "DELETE" 7) sample_listings
    = (inr {| resp_data := NoBody; status := 204 |},
       {| rows := delete 1 (rows sample_listings);
          next_pk := next_pk sample_listings |}) /\
  view (ListingViewSet.cls plain_serializer) (mapping detail_route) (Some 1)
       (user_request "PATCH" 7) sample_listings
    = (inr {| resp_data := One (sample_payload ∪ sample_listing);
              status := 200 |},
       {| rows := <[1 := sample_payload ∪ sample_listing]>
                    (rows sample_listings);
          next_pk := next_pk sample_listings |}).
Proof.
  split; [|split].
  - pose proof (listing_owner_gate plain_serializer (user_request "DELETE" 3)
                  sample_listings 1 7 3 sample_listing eq_refl eq_refl eq_refl
                  ltac:(repeat constructor)) as Hgate.
    cbv zeta in Hgate. destruct Hgate as [Hother _].
    destruct (Hother ltac:(discriminate)) as [Hrun Hkind].
    rewrite Hrun, Hkind; [reflexivity | by eexists].
  - pose proof (listing_owner_gate plain_serializer (user_request "DELETE" 7)
                  sample_listings 1 7 7 sample_listing eq_refl eq_refl eq_refl
                  ltac:(repeat constructor)) as Hgate.
    cbv zeta in Hgate. exact (proj1 (proj2 Hgate) eq_refl eq_refl).
  - pose proof (listing_owner_gate plain_serializer (user_request "PATCH" 7)
                  sample_listings 1 7 7 sample_listing eq_refl eq_refl eq_refl
                  ltac:(repeat constructor)) as Hgate.
    cbv zeta in Hgate.
    exact (proj1 (proj2 (proj2 Hgate)) eq_refl ltac:(discriminate)
                 sample_payload eq_refl).
Defined.

Lemma missing_row_not_found_witness :
  rows sample_bookings !! 5 = None /\
  view (BookingViewSet.cls plain_serializer) (mapping detail_route) (Some 5)
       (user_request "PUT" 3) sample_bookings
    = (inl NotFound, sample_bookings).
Proof.
  split; [reflexivity|].
  apply (missing_row_not_found plain_serializer
           (BookingViewSet.cls plain_serializer) "guest");
    [repeat constructor | reflexivity | repeat constructor | reflexivity].
Defined.

Lemma listing_create_then_retrieve_witness :
  view (ListingViewSet.cls plain_serializer) (mapping detail_route)
       (Some (next_pk sample_listings)) (anonymous_request "GET")
       (snd (view (ListingViewSet.cls plain_serializer) (mapping list_route)
                  None (user_request "POST" 3) sample_listings)) =
  (inr {| resp_data :=
            One (<["host" := PyObj (ModelUser 3)]> sample_payload);
          status := 200 |},
   snd (view (ListingViewSet.cls plain_serializer) (mapping list_route)
             None (user_request "POST" 3) sample_listings)).
Proof.
  exact (listing_create_then_retrieve plain_serializer
           (user_request "POST" 3) (anonymous_request "GET")
           sample_listings 3 sample_payload
           eq_refl eq_refl eq_refl eq_refl).
Defined.

Lemma listing_creator_controls_witness :
  rows (snd (view (ListingViewSet.cls plain_serializer) (mapping detail_route)
                  (Some (next_pk sample_listings)) (user_request "DELETE" 3)
                  (snd (view (ListingViewSet.cls plain_serializer)
                             (mapping list_route) None
                             (user_request "POST" 3) sample_listings))))
    = rows sample_listings /\
  fst (view (ListingViewSet.cls plain_serializer) (mapping detail_route)
            (Some (next_pk sample_listings)) (user_request "DELETE" 7)
            (snd (view (ListingViewSet.cls plain_serializer)
                       (mapping list_route) None
                       (user_request "POST" 3) sample_listings)))
    = inl PermissionDenied.
Proof.
  split.
  - pose proof (listing_creator_controls plain_serializer
                  (user_request "POST" 3) (user_request "DELETE" 3)
                  sample_listings 3 3 sample_payload
                  eq_refl eq_refl eq_refl eq_refl eq_refl) as Hctl.
    cbv zeta in Hctl.
    exact (proj2 (proj2 (proj1 Hctl eq_refl)) eq_refl).
  - pose proof (listing_creator_controls plain_serializer
                  (user_request "POST" 3) (user_request "DELETE" 7)
                  sample_listings 3 7 sample_payload
                  eq_refl eq_refl eq_refl eq_refl eq_refl) as Hctl.
    cbv zeta in Hctl.
    rewrite (proj2 Hctl ltac:(discriminate)). reflexivity.
Defined.

Lemma urlpatterns_resolves_witness :
  no_dot "listings/42/" = true /\
  no_dot "bookings/" = true /\
  urlpatterns plain_serializer "listings/42/" =
    Some (MatchViewSet
            {| pat_prefix := "listings"; pat_route := detail_route;
               pat_viewset := ListingViewSet.cls plain_serializer;
               pat_name := "listing-detail" |} (Some "42")) /\
  (forall m, urlpatterns plain_serializer "bookings/" = Some m -> False).
Proof.
  split; [reflexivity|]. split; [reflexivity|]. split.
  - apply (proj2 (urlpatterns_resolves plain_serializer "listings/42/" _
                    eq_refl)).
    right; left. exists "42".
    split; [split; [discriminate | reflexivity] | split; reflexivity].
  - intros m Hm.
    apply (proj1 (urlpatterns_resolves plain_serializer "bookings/" m
                    eq_refl)) in Hm.
    destruct Hm as [[Hp _]|[(pk & _ & Hp & _)|[Hp _]]]; discriminate Hp.
Defined.

Lemma request_touches_one_row_witness :
  rows (snd (view (ListingViewSet.cls plain_serializer) (mapping list_route)
                  None (user_request "POST" 3) sample_listings)) !! 1
    = rows sample_listings !! 1.
Proof.
  apply (request_touches_one_row plain_serializer
           (ListingViewSet.cls plain_serializer) "host");
    [repeat constructor | repeat constructor | discriminate | discriminate].
Defined.
